(** * MediSeen HMS backend: tenant scoping, audit trail and resource operations

    A shallow embedding of the Express/Prisma controllers of the hospital
    management backend.  Controllers are functions in a small state and
    exception monad over a [World]: the relational store, the console, a
    schedule of storage faults and the supply of generated row ids.

    JavaScript numbers are IEEE 754 doubles and are modelled by Rocq's
    primitive floats; integer columns (stock levels, row counts) are
    modelled by [Z].  The [express-validator] chains of the routes are
    declared but their result is never read, so the controllers see
    every body; a body field is [None] when it is missing.

    The first part embeds the controllers, the second part states and
    proves their properties. *)

From Stdlib Require Import ZArith Floats Sorted.
From stdpp Require Import base option strings gmap list.

Set Warnings "-register-all".

Local Open Scope string_scope.
Local Open Scope list_scope.

(** ** JavaScript values and exceptions *)

Inductive Exception :=
| TypeError (msg : string)
| PrismaError (code : string).

Inductive Result (A : Type) :=
| Ok (a : A)
| Throw (e : Exception).

Arguments Ok {A} a.
Arguments Throw {A} e.

Module Js.

(** The values a request body or an audit detail payload can hold.
    [Date ms] is a [Date] object, [IsoString ms] the string that
    [new Date(ms).toISOString()] returns; [Cyclic] stands for an object
    that is reachable from itself. *)
Inductive value :=
| Undefined
| Null
| Bool (b : bool)
| Num (x : float)
| Str (s : string)
| Date (ms : Z)
| IsoString (ms : Z)
| BigInt (z : Z)
| Arr (xs : list value)
| Obj (props : list (string * value))
| Cyclic.

Definition is_nan (x : float) : bool := negb (PrimFloat.eqb x x).

Definition is_finite (x : float) : bool :=
  match Prim2SF x with
  | S754_zero _ | S754_finite _ _ _ => true
  | _ => false
  end.

(** [!x] on a number: [0], [-0] and [NaN] are falsy. *)
Definition truthy_num (x : float) : bool :=
  negb (PrimFloat.eqb x 0%float || is_nan x).

(** [!s] on a string: only the empty string is falsy. *)
Definition truthy_str (s : string) : bool := negb (String.eqb s "").

(** A possibly absent ([undefined] or [null]) string used as a condition. *)
Definition truthy_ostr (o : option string) : bool :=
  match o with
  | Some s => truthy_str s
  | None => false
  end.

Definition truthy (v : value) : bool :=
  match v with
  | Undefined | Null => false
  | Bool b => b
  | Num x => truthy_num x
  | Str s => truthy_str s
  | BigInt z => negb (Z.eqb z 0)
  | Date _ | IsoString _ | Arr _ | Obj _ | Cyclic => true
  end.

Fixpoint assoc (k : string) (props : list (string * value)) : value :=
  match props with
  | [] => Undefined
  | (k', v) :: rest => if String.eqb k k' then v else assoc k rest
  end.

(** Property read [v.k]: a [TypeError] on [undefined] and [null]. *)
Definition prop (v : value) (k : string) : Result value :=
  match v with
  | Undefined => Throw (TypeError "Cannot read properties of undefined")
  | Null => Throw (TypeError "Cannot read properties of null")
  | Obj props => Ok (assoc k props)
  | _ => Ok Undefined
  end.

(** Strict equality with a string literal, as in a [switch] on strings. *)
Definition is_str (v : value) (s : string) : bool :=
  match v with
  | Str s' => String.eqb s' s
  | _ => false
  end.

(** [JSON.parse(JSON.stringify(v))] for a value nested in an object or an
    array: [Undefined] as a result means that the value is left out. *)
Fixpoint jsonify (v : value) : Result value :=
  match v with
  | Undefined => Ok Undefined
  | Null => Ok Null
  | Bool b => Ok (Bool b)
  | Num x => Ok (if is_finite x then Num x else Null)
  | Str s => Ok (Str s)
  | Date ms => Ok (IsoString ms)
  | IsoString ms => Ok (IsoString ms)
  | BigInt _ => Throw (TypeError "Do not know how to serialize a BigInt")
  | Cyclic => Throw (TypeError "Converting circular structure to JSON")
  | Arr xs =>
      let fix elems (l : list value) : Result (list value) :=
        match l with
        | [] => Ok []
        | x :: r =>
            match jsonify x with
            | Throw e => Throw e
            | Ok x' =>
                match elems r with
                | Throw e => Throw e
                | Ok r' => Ok (match x' with Undefined => Null | _ => x' end :: r')
                end
            end
        end in
      match elems xs with
      | Throw e => Throw e
      | Ok xs' => Ok (Arr xs')
      end
  | Obj props =>
      let fix fields (l : list (string * value)) : Result (list (string * value)) :=
        match l with
        | [] => Ok []
        | (k, x) :: r =>
            match jsonify x with
            | Throw e => Throw e
            | Ok x' =>
                match fields r with
                | Throw e => Throw e
                | Ok r' => Ok (match x' with Undefined => r' | _ => (k, x') :: r' end)
                end
            end
        end in
      match fields props with
      | Throw e => Throw e
      | Ok props' => Ok (Obj props')
      end
  end.

(** An integer as a JavaScript number (exact below 2^53). *)
Definition of_Z (z : Z) : float :=
  if (z <? 0)%Z then PrimFloat.opp (PrimFloat.of_uint63 (Uint63.of_Z (- z)))
  else PrimFloat.of_uint63 (Uint63.of_Z z).

(** [Math.round]: the nearest integer, a tie goes up; a value that is not
    finite or already integral is returned as it is.  The float
    [(-1)^s * m * 2^e] with [e < 0] is rounded exactly, as
    [floor (x + 1/2)] on the rationals. *)
Definition round_half_up (n d : Z) : Z := ((2 * n + d) / (2 * d))%Z.

Definition Math_round (x : float) : float :=
  match Prim2SF x with
  | S754_finite s m e =>
      if (0 <=? e)%Z then x
      else
        let r := round_half_up (if s then Z.neg m else Z.pos m) (2 ^ (- e)) in
        if (r =? 0)%Z then (if s then PrimFloat.neg_zero else PrimFloat.zero)
        else of_Z r
  | _ => x
  end.

(** [String(a || b || '')]. *)
Definition or_else (a b : option string) : string :=
  if truthy_ostr a then default "" a
  else if truthy_ostr b then default "" b
  else "".

End Js.

(** ** The relational schema (the columns the controllers read and write) *)

Record User := mkUser {
  u_id : string;
  u_email : string;
  u_password : string;
  u_firstName : string;
  u_lastName : string;
  u_phone : option string;
  u_role : string;
  u_hospitalId : option string;
  u_department : option string;
  u_active : bool;
}.

Record RefreshToken := mkRefreshToken {
  rt_id : string;
  rt_token : string;
  rt_userId : string;
  rt_expiresAt : Z;
}.

Record Ward := mkWard {
  w_id : string;
  w_hospitalId : string;
  w_name : string;
}.

Record Room := mkRoom {
  r_id : string;
  r_wardId : string;
  r_roomNumber : string;
}.

Record Bed := mkBed {
  b_id : string;
  b_roomId : string;
  b_bedNumber : string;
  b_status : string;
  b_currentPatientId : option string;
  b_currentAdmissionId : option string;
}.

Record Admission := mkAdmission {
  a_id : string;
  a_hospitalId : string;
  a_patientId : string;
  a_wardId : option string;
  a_roomId : option string;
  a_bedId : option string;
  a_assignedWardManager : option string;
  a_status : string;
  a_dischargeDate : option Z;
  a_dischargeNotes : option string;
  a_dischargeSummary : option string;
}.

Record InventoryItem := mkInventoryItem {
  i_id : string;
  i_hospitalId : string;
  i_name : string;
  i_stock : Z;
  i_reorderLevel : Z;
}.

Record BillingRecord := mkBillingRecord {
  br_id : string;
  br_hospitalId : string;
  br_patientId : string;
  br_totalAmount : float;
  br_paidAmount : float;
  br_status : string;
}.

Record Payment := mkPayment {
  p_id : string;
  p_billingRecordId : string;
  p_amount : float;
  p_method : string;
  p_reference : option string;
  p_receivedBy : string;
}.

Record AuditLog := mkAuditLog {
  al_id : string;
  al_userId : option string;
  al_hospitalId : option string;
  al_action : string;
  al_entity : string;
  al_entityId : option string;
  al_details : option Js.value;
  al_ipAddress : option string;
  al_userAgent : option string;
}.

(** Tables looked up by primary key are finite maps; the append-only
    tables (payments, refresh tokens, audit log) keep insertion order. *)
Record Database := mkDatabase {
  users : gmap string User;
  refreshTokens : list RefreshToken;
  wards : gmap string Ward;
  rooms : gmap string Room;
  beds : gmap string Bed;
  admissions : gmap string Admission;
  inventoryItems : gmap string InventoryItem;
  billingRecords : gmap string BillingRecord;
  payments : list Payment;
  auditLogs : list AuditLog;
}.

Definition set_users (v : gmap string User) (d : Database) : Database :=
  mkDatabase v (refreshTokens d) (wards d) (rooms d) (beds d) (admissions d)
             (inventoryItems d) (billingRecords d) (payments d) (auditLogs d).

Definition set_refreshTokens (v : list RefreshToken) (d : Database) : Database :=
  mkDatabase (users d) v (wards d) (rooms d) (beds d) (admissions d)
             (inventoryItems d) (billingRecords d) (payments d) (auditLogs d).

Definition set_beds (v : gmap string Bed) (d : Database) : Database :=
  mkDatabase (users d) (refreshTokens d) (wards d) (rooms d) v (admissions d)
             (inventoryItems d) (billingRecords d) (payments d) (auditLogs d).

Definition set_admissions (v : gmap string Admission) (d : Database) : Database :=
  mkDatabase (users d) (refreshTokens d) (wards d) (rooms d) (beds d) v
             (inventoryItems d) (billingRecords d) (payments d) (auditLogs d).

Definition set_inventoryItems (v : gmap string InventoryItem) (d : Database) : Database :=
  mkDatabase (users d) (refreshTokens d) (wards d) (rooms d) (beds d) (admissions d)
             v (billingRecords d) (payments d) (auditLogs d).

Definition set_billingRecords (v : gmap string BillingRecord) (d : Database) : Database :=
  mkDatabase (users d) (refreshTokens d) (wards d) (rooms d) (beds d) (admissions d)
             (inventoryItems d) v (payments d) (auditLogs d).

Definition set_payments (v : list Payment) (d : Database) : Database :=
  mkDatabase (users d) (refreshTokens d) (wards d) (rooms d) (beds d) (admissions d)
             (inventoryItems d) (billingRecords d) v (auditLogs d).

Definition set_auditLogs (v : list AuditLog) (d : Database) : Database :=
  mkDatabase (users d) (refreshTokens d) (wards d) (rooms d) (beds d) (admissions d)
             (inventoryItems d) (billingRecords d) (payments d) v.

Definition empty_db : Database :=
  mkDatabase ∅ [] ∅ ∅ ∅ ∅ ∅ ∅ [] [].

(** ** The runtime: world, monad, storage calls *)

Record LogEntry := mkLogEntry {
  le_level : string;
  le_message : string;
  le_error : option Exception;
}.

(** [faults]: one entry is consumed by every storage call, [true] makes the
    call throw (connection lost, constraint violated by a concurrent
    writer); an empty schedule means that the storage layer is healthy.
    [uuids]: the ids the storage layer hands to created rows.
    [clock]: [new Date()], in milliseconds since the epoch. *)
Record World := mkWorld {
  db : Database;
  console : list LogEntry;
  faults : list bool;
  uuids : list string;
  clock : Z;
}.

Definition set_db (d : Database) (w : World) : World :=
  mkWorld d (console w) (faults w) (uuids w) (clock w).

Definition set_console (c : list LogEntry) (w : World) : World :=
  mkWorld (db w) c (faults w) (uuids w) (clock w).

Definition set_faults (f : list bool) (w : World) : World :=
  mkWorld (db w) (console w) f (uuids w) (clock w).

Definition set_uuids (i : list string) (w : World) : World :=
  mkWorld (db w) (console w) (faults w) i (clock w).

Definition M (A : Type) : Type := World -> Result A * World.

Definition ret {A} (a : A) : M A := fun w => (Ok a, w).

Definition throw {A} (e : Exception) : M A := fun w => (Throw e, w).

Definition bind {A B} (m : M A) (f : A -> M B) : M B := fun w =>
  match m w with
  | (Ok a, w') => f a w'
  | (Throw e, w') => (Throw e, w')
  end.

Notation "'let!' x ':=' m 'in' k" := (bind m (fun x => k))
  (at level 10, x name, m at level 100, k at level 200).
Notation "'run!' m 'in' k" := (bind m (fun _ => k))
  (at level 10, m at level 100, k at level 200).

(** [try { m } catch (e) { h e }]. *)
Definition try_catch {A} (m : M A) (h : Exception -> M A) : M A := fun w =>
  match m w with
  | (Ok a, w') => (Ok a, w')
  | (Throw e, w') => h e w'
  end.

Definition lift {A} (r : Result A) : M A := fun w => (r, w).

Definition console_error (msg : string) (e : Exception) : M unit := fun w =>
  (Ok tt, set_console (console w ++ [mkLogEntry "error" msg (Some e)]) w).

Definition console_error_msg (msg : string) : M unit := fun w =>
  (Ok tt, set_console (console w ++ [mkLogEntry "error" msg None]) w).

Definition console_log (msg : string) : M unit := fun w =>
  (Ok tt, set_console (console w ++ [mkLogEntry "log" msg None]) w).

Definition now : M Z := fun w => (Ok (clock w), w).

(** One awaited Prisma call. *)
Definition storage {A} (op : Database -> Result A * Database) : M A := fun w =>
  match faults w with
  | true :: fs => (Throw (PrismaError "P1001"), set_faults fs w)
  | false :: fs => let '(r, d) := op (db w) in (r, set_db d (set_faults fs w))
  | [] => let '(r, d) := op (db w) in (r, set_db d w)
  end.

(** The id of a row about to be created ([@default(uuid())]); a store
    that has no id to hand out cannot create the row. *)
Definition fresh_id : M string := fun w =>
  match uuids w with
  | i :: rest => (Ok i, set_uuids rest w)
  | [] => (Throw (PrismaError "P1001"), w)
  end.

(** [prisma.$transaction([...])]: all writes or none. *)
Definition transaction {A} (m : M A) : M A := fun w =>
  match m w with
  | (Ok a, w') => (Ok a, w')
  | (Throw e, w') => (Throw e, set_db (db w) w')
  end.

(** ** Requests and responses *)

(** [req.user], as decoded from the access token. *)
Record Principal := mkPrincipal {
  id : string;
  email : string;
  role : string;
  hospitalId : option string;
  firstName : string;
  lastName : string;
}.

Record Request (B : Type) := mkRequest {
  user : option Principal;
  param_id : string;
  ip : option string;
  remoteAddress : option string;
  userAgent : option string;
  body : B;
}.

Arguments mkRequest {B}.
Arguments user {B}.
Arguments param_id {B}.
Arguments ip {B}.
Arguments remoteAddress {B}.
Arguments userAgent {B}.
Arguments body {B}.


Inductive Payload :=
| PError (error : string)
| PMessage (message : string)
| PReceived (received : bool)
| PAdmission (admission : Admission)
| PInventoryItem (inventoryItem : InventoryItem)
| PPayment (payment : Payment) (billingRecord : BillingRecord)
| PUser (user : User)
| PSetup (message accessToken refreshToken : string) (created : User).

Record Response := mkResponse {
  status : Z;
  payload : Payload;
}.

Definition respond (code : Z) (p : Payload) : M Response := ret (mkResponse code p).

(** ** The tenant scope check

    [req.user.role !== 'SUPER_ADMIN' && resource.hospitalId !== req.user.hospitalId]
    answers 403; [tenantAccess] is the negation of that condition. *)

Definition SUPER_ADMIN : string := "SUPER_ADMIN".

Definition same_tenant (resourceHospitalId userHospitalId : option string) : bool :=
  bool_decide (resourceHospitalId = userHospitalId).

Definition tenantDenied (p : Principal) (resourceHospitalId : option string) : bool :=
  negb (String.eqb (role p) SUPER_ADMIN)
  && negb (same_tenant resourceHospitalId (hospitalId p)).

Definition tenantAccess (p : Principal) (resourceHospitalId : option string) : bool :=
  negb (tenantDenied p resourceHospitalId).

(** ** utils/audit.ts *)

Record AuditLogData := mkAuditLogData {
  ad_userId : option string;
  ad_hospitalId : option string;
  ad_action : string;
  ad_entity : string;
  ad_entityId : option string;
  ad_details : option Js.value;
  ad_ipAddress : option string;
  ad_userAgent : option string;
}.

Definition auditLog_create (row : string -> AuditLog) : M AuditLog :=
  let! i := fresh_id in
  storage (fun d =>
    if existsb (fun r => String.eqb (al_id r) i) (auditLogs d)
    then (Throw (PrismaError "P2002"), d)
    else (Ok (row i), set_auditLogs (auditLogs d ++ [row i]) d)).

(** [data.details ? JSON.parse(JSON.stringify(data.details)) : undefined] *)
Definition details_copy (details : option Js.value) : Result (option Js.value) :=
  match details with
  | Some v =>
      if Js.truthy v then
        match Js.jsonify v with
        | Ok Js.Undefined => Throw (TypeError "Unexpected token u in JSON")
        | Ok v' => Ok (Some v')
        | Throw e => Throw e
        end
      else Ok None
  | None => Ok None
  end.

Definition createAuditLog (data : AuditLogData) : M unit :=
  try_catch
    (let! details := lift (details_copy (ad_details data)) in
     run! auditLog_create (fun i =>
       mkAuditLog i (ad_userId data) (ad_hospitalId data) (ad_action data)
                  (ad_entity data) (ad_entityId data) details
                  (ad_ipAddress data) (ad_userAgent data)) in
     ret tt)
    (fun e => console_error "Failed to create audit log:" e).

(** The [ipAddress] and [userAgent] arguments every controller passes:
    [String(req.ip || req.socket.remoteAddress || '')] and
    [String(req.headers['user-agent'] || '')]. *)
Definition req_ipAddress {B} (req : Request B) : option string :=
  Some (Js.or_else (ip req) (remoteAddress req)).

Definition req_userAgent {B} (req : Request B) : option string :=
  Some (Js.or_else (userAgent req) None).

(** ** controllers/admissionController.ts *)

Definition AVAILABLE : string := "AVAILABLE".
Definition OCCUPIED : string := "OCCUPIED".
Definition ADMITTED : string := "ADMITTED".
Definition DISCHARGED : string := "DISCHARGED".

Definition admission_findUnique (aid : string) : M (option Admission) :=
  storage (fun d => (Ok (admissions d !! aid), d)).

(** [prisma.admission.update]: [P2025] when the row does not exist. *)
Definition admission_update (aid : string) (f : Admission -> Admission) : M Admission :=
  storage (fun d =>
    match admissions d !! aid with
    | None => (Throw (PrismaError "P2025"), d)
    | Some a => (Ok (f a), set_admissions (<[aid := f a]> (admissions d)) d)
    end).

(** [prisma.bed.findUnique] with [include: { room: { include: { ward } } }];
    both relations are required ones. *)
Definition bed_findUnique (bid : string) : M (option (Bed * Room * Ward)) :=
  storage (fun d =>
    match beds d !! bid with
    | None => (Ok None, d)
    | Some b =>
        match rooms d !! b_roomId b with
        | None => (Throw (PrismaError "P2025"), d)
        | Some r =>
            match wards d !! r_wardId r with
            | None => (Throw (PrismaError "P2025"), d)
            | Some wd => (Ok (Some (b, r, wd)), d)
            end
        end
    end).

Definition bed_update (bid : string) (f : Bed -> Bed) : M Bed :=
  storage (fun d =>
    match beds d !! bid with
    | None => (Throw (PrismaError "P2025"), d)
    | Some b => (Ok (f b), set_beds (<[bid := f b]> (beds d)) d)
    end).

(** [data: { status: 'AVAILABLE', currentPatientId: null, currentAdmissionId: null }] *)
Definition release_bed (b : Bed) : Bed :=
  mkBed (b_id b) (b_roomId b) (b_bedNumber b) AVAILABLE None None.

(** [data: { status: 'OCCUPIED', currentPatientId, currentAdmissionId }] *)
Definition occupy_bed (patientId admissionId : string) (b : Bed) : Bed :=
  mkBed (b_id b) (b_roomId b) (b_bedNumber b) OCCUPIED (Some patientId) (Some admissionId).

(** [data: { wardId, roomId, bedId, assignedWardManager, status: 'ADMITTED' }] *)
Definition place_admission (wardId roomId bedId manager : string) (a : Admission) : Admission :=
  mkAdmission (a_id a) (a_hospitalId a) (a_patientId a)
              (Some wardId) (Some roomId) (Some bedId) (Some manager) ADMITTED
              (a_dischargeDate a) (a_dischargeNotes a) (a_dischargeSummary a).

(** [data: { status: 'DISCHARGED', dischargeDate, dischargeNotes, dischargeSummary }];
    a field that is [undefined] in the request keeps its stored value. *)
Definition discharge_admission (date : Z) (notes summary : option string)
    (a : Admission) : Admission :=
  mkAdmission (a_id a) (a_hospitalId a) (a_patientId a)
              (a_wardId a) (a_roomId a) (a_bedId a) (a_assignedWardManager a) DISCHARGED
              (Some date)
              (match notes with Some n => Some n | None => a_dischargeNotes a end)
              (match summary with Some n => Some n | None => a_dischargeSummary a end).

Record AssignBedBody := mkAssignBedBody {
  ab_bedId : option string;
}.

Definition assignBed (req : Request AssignBedBody) : M Response :=
  try_catch
    (match user req with
     | None => respond 401 (PError "Authentication required")
     | Some u =>
       let rowId := param_id req in
       if negb (Js.truthy_ostr (ab_bedId (body req))) then
         respond 400 (PError "Bed ID is required")
       else
       let bedId := default "" (ab_bedId (body req)) in
       let! found := admission_findUnique rowId in
       match found with
       | None => respond 404 (PError "Admission not found")
       | Some existingAdmission =>
         if tenantDenied u (Some (a_hospitalId existingAdmission)) then
           respond 403 (PError "Access denied")
         else
         let! foundBed := bed_findUnique bedId in
         match foundBed with
         | None => respond 404 (PError "Bed not found")
         | Some (bed, room, ward) =>
           if negb (String.eqb (w_hospitalId ward) (a_hospitalId existingAdmission)) then
             respond 400 (PError "Bed does not belong to the same hospital")
           else if negb (String.eqb (b_status bed) AVAILABLE) then
             respond 400 (PError "Bed is not available")
           else
           (* If admission already has a bed, free it first *)
           run! (if Js.truthy_ostr (a_bedId existingAdmission)
                 then run! bed_update (default "" (a_bedId existingAdmission)) release_bed
                      in ret tt
                 else ret tt) in
           (* Update admission and bed in a transaction *)
           let! admission :=
             transaction
               (let! a := admission_update rowId
                            (place_admission (r_wardId room) (b_roomId bed) (b_id bed) (id u)) in
                run! bed_update bedId (occupy_bed (a_patientId existingAdmission) rowId) in
                ret a) in
           run! createAuditLog
                  (mkAuditLogData (Some (id u)) (Some (a_hospitalId existingAdmission))
                     "ASSIGN_BED" "ADMISSION" (Some (a_id admission))
                     (Some (Js.Obj [("bedId", Js.Str bedId);
                                    ("wardId", Js.Str (r_wardId room));
                                    ("roomId", Js.Str (b_roomId bed))]))
                     (req_ipAddress req) (req_userAgent req)) in
           respond 200 (PAdmission admission)
         end
       end
     end)
    (fun e =>
       run! console_error "Assign bed error:" e in
       respond 500 (PError "Failed to assign bed")).

Record DischargeBody := mkDischargeBody {
  dischargeNotes : option string;
  dischargeSummary : option string;
}.

Definition dischargePatient (req : Request DischargeBody) : M Response :=
  try_catch
    (match user req with
     | None => respond 401 (PError "Authentication required")
     | Some u =>
       let rowId := param_id req in
       let! found := admission_findUnique rowId in
       match found with
       | None => respond 404 (PError "Admission not found")
       | Some existingAdmission =>
         if tenantDenied u (Some (a_hospitalId existingAdmission)) then
           respond 403 (PError "Access denied")
         else if String.eqb (a_status existingAdmission) DISCHARGED then
           respond 400 (PError "Patient already discharged")
         else
         let! date := now in
         (* Update admission and free bed in a transaction *)
         let! admission :=
           transaction
             (let! a := admission_update rowId
                          (discharge_admission date (dischargeNotes (body req))
                                               (dischargeSummary (body req))) in
              run! (if Js.truthy_ostr (a_bedId existingAdmission)
                    then run! bed_update (default "" (a_bedId existingAdmission)) release_bed
                         in ret tt
                    else ret tt) in
              ret a) in
         let! logged := now in
         run! createAuditLog
                (mkAuditLogData (Some (id u)) (Some (a_hospitalId existingAdmission))
                   "DISCHARGE_PATIENT" "ADMISSION" (Some (a_id admission))
                   (Some (Js.Obj [("patientId", Js.Str (a_patientId existingAdmission));
                                  ("dischargeDate", Js.Date logged)]))
                   (req_ipAddress req) (req_userAgent req)) in
         respond 200 (PAdmission admission)
       end
     end)
    (fun e =>
       run! console_error "Discharge patient error:" e in
       respond 500 (PError "Failed to discharge patient")).

(** ** controllers/inventoryController.ts *)

Definition inventoryItem_findUnique (iid : string) : M (option InventoryItem) :=
  storage (fun d => (Ok (inventoryItems d !! iid), d)).

Definition inventoryItem_update (iid : string) (f : InventoryItem -> InventoryItem)
    : M InventoryItem :=
  storage (fun d =>
    match inventoryItems d !! iid with
    | None => (Throw (PrismaError "P2025"), d)
    | Some i => (Ok (f i), set_inventoryItems (<[iid := f i]> (inventoryItems d)) d)
    end).

Definition set_stock (n : Z) (i : InventoryItem) : InventoryItem :=
  mkInventoryItem (i_id i) (i_hospitalId i) (i_name i) n (i_reorderLevel i).

(** [adjustment] is [None] when the body has no such field; the route
    declares it an integer, and the column it is written to is one. *)
Record UpdateStockBody := mkUpdateStockBody {
  adjustment : option Z;
  type : option string;
}.

(** The new stock level and whether the request is refused
    ([newStock < 0] in the [SUBTRACT] branch). *)
Definition calculate_stock (stock adj : Z) (type : string) : Z * bool :=
  if String.eqb type "ADD" then ((stock + adj)%Z, false)
  else if String.eqb type "SUBTRACT" then ((stock - adj)%Z, (stock - adj <? 0)%Z)
  else if String.eqb type "SET" then (adj, false)
  else (stock, false).

Definition updateStock (req : Request UpdateStockBody) : M Response :=
  try_catch
    (match user req with
     | None => respond 401 (PError "Authentication required")
     | Some u =>
       let rowId := param_id req in
       match adjustment (body req) with
       | None => respond 400 (PError "Adjustment and type are required")
       | Some adj =>
         if negb (Js.truthy_ostr (type (body req))) then
           respond 400 (PError "Adjustment and type are required")
         else
         let ty := default "" (type (body req)) in
         let! found := inventoryItem_findUnique rowId in
         match found with
         | None => respond 404 (PError "Inventory item not found")
         | Some existingItem =>
           if tenantDenied u (Some (i_hospitalId existingItem)) then
             respond 403 (PError "Access denied")
           else
           let '(newStock, refused) := calculate_stock (i_stock existingItem) adj ty in
           if refused then respond 400 (PError "Insufficient stock")
           else
           let! inventoryItem := inventoryItem_update rowId (set_stock newStock) in
           run! createAuditLog
                  (mkAuditLogData (Some (id u)) (Some (i_hospitalId existingItem))
                     "UPDATE_STOCK" "INVENTORY_ITEM" (Some (i_id inventoryItem))
                     (Some (Js.Obj [("name", Js.Str (i_name inventoryItem));
                                    ("type", Js.Str ty);
                                    ("adjustment", Js.Num (Js.of_Z adj));
                                    ("previousStock", Js.Num (Js.of_Z (i_stock existingItem)));
                                    ("newStock", Js.Num (Js.of_Z newStock))]))
                     (req_ipAddress req) (req_userAgent req)) in
           respond 200 (PInventoryItem inventoryItem)
         end
       end
     end)
    (fun e =>
       run! console_error "Update stock error:" e in
       respond 500 (PError "Failed to update stock")).

(** ** controllers/billingController.ts *)

Definition PAID : string := "PAID".
Definition PARTIAL : string := "PARTIAL".

Definition billingRecord_findUnique (bid : string) : M (option BillingRecord) :=
  storage (fun d => (Ok (billingRecords d !! bid), d)).

Definition billingRecord_update (bid : string) (f : BillingRecord -> BillingRecord)
    : M BillingRecord :=
  storage (fun d =>
    match billingRecords d !! bid with
    | None => (Throw (PrismaError "P2025"), d)
    | Some b => (Ok (f b), set_billingRecords (<[bid := f b]> (billingRecords d)) d)
    end).

Definition payment_create (row : string -> Payment) : M Payment :=
  let! i := fresh_id in
  storage (fun d =>
    if existsb (fun r => String.eqb (p_id r) i) (payments d)
    then (Throw (PrismaError "P2002"), d)
    else (Ok (row i), set_payments (payments d ++ [row i]) d)).

(** [data: { paidAmount: newPaidAmount, status: newStatus }] *)
Definition set_paid (paid : float) (st : string) (b : BillingRecord) : BillingRecord :=
  mkBillingRecord (br_id b) (br_hospitalId b) (br_patientId b) (br_totalAmount b) paid st.

(** [newStatus]: [PAID] when [newPaidAmount >= totalAmount], else
    [PARTIAL] when [newPaidAmount > 0], else the stored status. *)
Definition derive_status (newPaidAmount totalAmount : float) (stored : string) : string :=
  if PrimFloat.leb totalAmount newPaidAmount then PAID
  else if PrimFloat.ltb 0%float newPaidAmount then PARTIAL
  else stored.

(** The destructured fields of the body; [pb_status] is a [status] field a
    client may send along, which the controller never reads. *)
Record PaymentBody := mkPaymentBody {
  billingRecordId : option string;
  amount : option float;
  method : option string;
  reference : option string;
  pb_status : option string;
}.

Definition truthy_amount (a : option float) : bool :=
  match a with
  | Some x => Js.truthy_num x
  | None => false
  end.

Definition addPayment (req : Request PaymentBody) : M Response :=
  try_catch
    (match user req with
     | None => respond 401 (PError "Authentication required")
     | Some u =>
       if negb (Js.truthy_ostr (billingRecordId (body req)))
          || negb (truthy_amount (amount (body req)))
          || negb (Js.truthy_ostr (method (body req))) then
         respond 400 (PError "Missing required fields")
       else
       let bid := default "" (billingRecordId (body req)) in
       let amt := default 0%float (amount (body req)) in
       let meth := default "" (method (body req)) in
       let! found := billingRecord_findUnique bid in
       match found with
       | None => respond 404 (PError "Billing record not found")
       | Some existingBilling =>
         if tenantDenied u (Some (br_hospitalId existingBilling)) then
           respond 403 (PError "Access denied")
         else
         let! payment :=
           payment_create (fun i => mkPayment i bid amt meth (reference (body req)) (id u)) in
         let newPaidAmount := PrimFloat.add (br_paidAmount existingBilling) amt in
         let newStatus :=
           derive_status newPaidAmount (br_totalAmount existingBilling)
                         (br_status existingBilling) in
         let! billingRecord := billingRecord_update bid (set_paid newPaidAmount newStatus) in
         run! createAuditLog
                (mkAuditLogData (Some (id u)) (Some (br_hospitalId existingBilling))
                   "ADD_PAYMENT" "PAYMENT" (Some (p_id payment))
                   (Some (Js.Obj [("billingRecordId", Js.Str bid);
                                  ("amount", Js.Num amt);
                                  ("method", Js.Str meth);
                                  ("newStatus", Js.Str newStatus)]))
                   (req_ipAddress req) (req_userAgent req)) in
         respond 201 (PPayment payment billingRecord)
       end
     end)
    (fun e =>
       run! console_error "Add payment error:" e in
       respond 500 (PError "Failed to add payment")).

(** The amounts paid towards a billing record, oldest first, and their
    running sum as [addPayment] accumulates it from [paidAmount: 0]. *)
Definition payments_of (bid : string) (d : Database) : list float :=
  map p_amount (List.filter (fun p => String.eqb (p_billingRecordId p) bid) (payments d)).

Definition running_sum (amounts : list float) : float :=
  fold_left PrimFloat.add amounts 0%float.

(** *** getDashboardStats: the bed occupancy block *)





(** [totalBeds > 0 ? Math.round((occupiedBeds / totalBeds) * 100) : 0] *)
Definition occupancyPercentage (totalBeds occupiedBeds : Z) : float :=
  if (0 <? totalBeds)%Z then
    Js.Math_round
      (PrimFloat.mul (PrimFloat.div (Js.of_Z occupiedBeds) (Js.of_Z totalBeds)) 100%float)
  else 0%float.


(** ** controllers/userController.ts: updateUser *)

Definition user_findUnique (uid : string) : M (option User) :=
  storage (fun d => (Ok (users d !! uid), d)).

Definition user_update (uid : string) (f : User -> User) : M User :=
  storage (fun d =>
    match users d !! uid with
    | None => (Throw (PrismaError "P2025"), d)
    | Some u => (Ok (f u), set_users (<[uid := f u]> (users d)) d)
    end).





(** ** utils/jwt.ts and controllers/authController.ts

    [jsonwebtoken]'s [sign] and the password hash are library code and are
    taken as parameters, as are the variables read from the environment. *)

Section Auth.

Variable jwt_sign : Principal -> string -> string -> string.
Variable hashPassword : string -> string.
Variables env_JWT_SECRET env_JWT_REFRESH_SECRET : option string.
Variables env_JWT_EXPIRES_IN env_JWT_REFRESH_EXPIRES_IN : option string.

(** [process.env.X || fallback] *)
Definition env_or (v : option string) (fallback : string) : string :=
  if Js.truthy_ostr v then default "" v else fallback.

Definition JWT_SECRET : string :=
  env_or env_JWT_SECRET "6df873ca7c2133520810df9a40eb60f76750fac68ec4d37c4723269085010900".

Definition JWT_REFRESH_SECRET : string :=
  env_or env_JWT_REFRESH_SECRET
         "f062becf55b5e4aba92d7133e551c11be63e9e066dc7e89564c50ffd81a7e142".

Definition JWT_EXPIRES_IN : string := env_or env_JWT_EXPIRES_IN "15m".

Definition JWT_REFRESH_EXPIRES_IN : string := env_or env_JWT_REFRESH_EXPIRES_IN "7d".

Definition generateAccessToken (u : Principal) : string :=
  jwt_sign (mkPrincipal (id u) (email u) (role u) (hospitalId u) (firstName u) (lastName u))
           JWT_SECRET JWT_EXPIRES_IN.

Definition generateRefreshToken (u : Principal) : string :=
  jwt_sign (mkPrincipal (id u) (email u) (role u) (hospitalId u) (firstName u) (lastName u))
           JWT_REFRESH_SECRET JWT_REFRESH_EXPIRES_IN.

(** [prisma.user.count()] *)
Definition user_count : M Z :=
  storage (fun d => (Ok (Z.of_nat (size (users d))), d)).

(** [prisma.user.create]: the id is generated, the e-mail address is unique. *)
Definition user_create (row : string -> User) : M User :=
  let! i := fresh_id in
  storage (fun d =>
    match users d !! i with
    | Some _ => (Throw (PrismaError "P2002"), d)
    | None =>
        if existsb (fun ku : string * User => String.eqb (u_email ku.2) (u_email (row i)))
                   (map_to_list (users d))
        then (Throw (PrismaError "P2002"), d)
        else (Ok (row i), set_users (<[i := row i]> (users d)) d)
    end).

Definition refreshToken_create (row : string -> RefreshToken) : M RefreshToken :=
  let! i := fresh_id in
  storage (fun d =>
    if existsb (fun r => String.eqb (rt_id r) i || String.eqb (rt_token r) (rt_token (row i)))
               (refreshTokens d)
    then (Throw (PrismaError "P2002"), d)
    else (Ok (row i), set_refreshTokens (refreshTokens d ++ [row i]) d)).

Record SetupBody := mkSetupBody {
  sb_email : option string;
  sb_password : option string;
  sb_firstName : option string;
  sb_lastName : option string;
}.

(** [expiresAt.setDate(expiresAt.getDate() + 7)], on a calendar without
    clock changes. *)
Definition seven_days_later (t : Z) : Z := (t + 7 * 86400000)%Z.

Definition initialSetup (req : Request SetupBody) : M Response :=
  try_catch
    ((* Check if any users exist *)
     let! userCount := user_count in
     if (0 <? userCount)%Z then
       respond 403 (PError "Setup already completed. Users already exist.")
     else
     if negb (Js.truthy_ostr (sb_email (body req)))
        || negb (Js.truthy_ostr (sb_password (body req)))
        || negb (Js.truthy_ostr (sb_firstName (body req)))
        || negb (Js.truthy_ostr (sb_lastName (body req))) then
       respond 400 (PError "Email, password, firstName, and lastName are required")
     else
     let email := default "" (sb_email (body req)) in
     let password := default "" (sb_password (body req)) in
     let firstName := default "" (sb_firstName (body req)) in
     let lastName := default "" (sb_lastName (body req)) in
     if (String.length password <? 8)%nat then
       respond 400 (PError "Password must be at least 8 characters")
     else
     (* Create the initial superadmin *)
     let hashedPassword := hashPassword password in
     let! created :=
       user_create (fun i =>
         mkUser i email hashedPassword firstName lastName None SUPER_ADMIN None None true) in
     let userPayload :=
       mkPrincipal (u_id created) (u_email created) (u_role created) (u_hospitalId created)
                   (u_firstName created) (u_lastName created) in
     let accessToken := generateAccessToken userPayload in
     let refreshToken := generateRefreshToken userPayload in
     let! t := now in
     run! refreshToken_create (fun i =>
            mkRefreshToken i refreshToken (u_id created) (seven_days_later t)) in
     respond 201 (PSetup "Initial setup complete. Superadmin created."
                         accessToken refreshToken created))
    (fun e =>
       run! console_error "Initial setup error:" e in
       respond 500 (PError "Setup failed")).

(** Every other write of the controllers to the user table is a
    [prisma.user.create] or a [prisma.user.update]; none deletes a row. *)
Inductive ApiCall :=
| Setup (req : Request SetupBody)
| UserCreate (row : string -> User)
| UserUpdate (uid : string) (f : User -> User).

(** One call against the API; a user write reports no response here. *)
Definition api_call (c : ApiCall) : M (option Response) :=
  match c with
  | Setup req => let! r := initialSetup req in ret (Some r)
  | UserCreate row => try_catch (run! user_create row in ret None) (fun _ => ret None)
  | UserUpdate uid f => try_catch (run! user_update uid f in ret None) (fun _ => ret None)
  end.

(** The responses of the bootstrap attempts within a sequence of calls. *)
Fixpoint api_calls (cs : list ApiCall) (w : World) : list Response * World :=
  match cs with
  | [] => ([], w)
  | c :: rest =>
      match api_call c w with
      | (Ok (Some r), w') => let '(rs, w'') := api_calls rest w' in (r :: rs, w'')
      | (_, w') => api_calls rest w'
      end
  end.

End Auth.

(** ** routes/payment.routes.ts: the webhook

    Node's [crypto] HMAC and [JSON.stringify] are taken as parameters, as
    is [process.env.PAYSTACK_WEBHOOK_SECRET]. *)

Section Payments.

Variable hmac_sha512_hex : string -> string -> string.
Variable JSON_stringify : Js.value -> string.
Variable PAYSTACK_WEBHOOK_SECRET : option string.

Record WebhookRequest := mkWebhookRequest {
  x_paystack_signature : option string;
  wh_body : Js.value;
}.

(** [JSON.stringify(req.body)] handed to [hmac.update]: [undefined] is not
    accepted as data, and an unserialisable value makes [stringify] throw. *)
Definition stringify_body (v : Js.value) : Result string :=
  match v with
  | Js.Undefined => Throw (TypeError "The data argument must be of type string")
  | _ =>
      match Js.jsonify v with
      | Throw e => Throw e
      | Ok _ => Ok (JSON_stringify v)
      end
  end.

(** [PAYSTACK_WEBHOOK_SECRET && signature] *)
Definition verification_performed (req : WebhookRequest) : bool :=
  Js.truthy_ostr PAYSTACK_WEBHOOK_SECRET && Js.truthy_ostr (x_paystack_signature req).

(** [console.log(label, event.data.reference)] *)
Definition log_reference (label : string) (event : Js.value) : M unit :=
  let! data := lift (Js.prop event "data") in
  let! _ref := lift (Js.prop data "reference") in
  console_log label.

(** The [switch (event.event)] inside the [try] block. *)
Definition process_event (event : Js.value) : M unit :=
  let! kind := lift (Js.prop event "event") in
  if Js.is_str kind "charge.success" then
    log_reference "[Payment] Charge successful:" event
  else if Js.is_str kind "charge.failed" then
    log_reference "[Payment] Charge failed:" event
  else if Js.is_str kind "transfer.success" then
    log_reference "[Payment] Transfer successful:" event
  else if Js.is_str kind "transfer.failed" then
    log_reference "[Payment] Transfer failed:" event
  else console_log "[Payment] Unhandled event:".

(** The handler proper is not inside a [try]: an exception raised before
    the [try] block leaves the handler. *)
Definition webhook (req : WebhookRequest) : M Response :=
  let signature := x_paystack_signature req in
  let! mismatch :=
    if verification_performed req then
      let! text := lift (stringify_body (wh_body req)) in
      let hash := hmac_sha512_hex (default "" PAYSTACK_WEBHOOK_SECRET) text in
      ret (negb (String.eqb hash (default "" signature)))
    else ret false in
  if mismatch then
    run! console_error_msg "[Payment] Invalid webhook signature" in
    respond 401 (PMessage "Invalid signature")
  else
  let event := wh_body req in
  let! _kind := lift (Js.prop event "event") in
  run! console_log "[Payment] Webhook event:" in
  try_catch
    (run! process_event event in
     (* Always return 200 to acknowledge receipt *)
     respond 200 (PReceived true))
    (fun e =>
       run! console_error "[Payment] Webhook processing error:" e in
       respond 200 (PReceived true)).

End Payments.

(** ** Auxiliary notions and scenarios *)

(** Two databases that differ in the audit log at most. *)
Definition same_records (d d' : Database) : Prop :=
  set_auditLogs [] d' = set_auditLogs [] d.

(** What one call of the recorder can do to the world. *)
Definition audit_step (w w' : World) : Prop :=
  same_records (db w) (db w') /\ clock w' = clock w
  /\ (faults w = [] -> faults w' = [])
  /\ ((auditLogs (db w') = auditLogs (db w)
       /\ exists e, console w' =
                    console w ++ [mkLogEntry "error" "Failed to create audit log:" (Some e)])
      \/ (console w' = console w
          /\ exists row, auditLogs (db w') = auditLogs (db w) ++ [row])).

(** A stock adjustment sent by [u] for the item [itemId]. *)
Definition stock_request (u : Principal) (itemId : string) (adj : Z) (ty : string)
    : Request UpdateStockBody :=
  mkRequest (Some u) itemId None None None (mkUpdateStockBody (Some adj) (Some ty)).

(** The same request with another client-sent [status]. *)
Definition with_status (s : option string) (req : Request PaymentBody) : Request PaymentBody :=
  mkRequest (user req) (param_id req) (ip req) (remoteAddress req) (userAgent req)
            (mkPaymentBody (billingRecordId (body req)) (amount (body req))
                           (method (body req)) (reference (body req)) s).

(** The answers of the bootstrap gate and of the webhook. *)
Definition setup_refused : Response :=
  mkResponse 403 (PError "Setup already completed. Users already exist.").

Definition invalid_signature : Response := mkResponse 401 (PMessage "Invalid signature").
Definition acknowledged : Response := mkResponse 200 (PReceived true).

(** An event whose processing throws: [charge.success] without [data]. *)
Definition charge_without_data : Js.value :=
  Js.Obj [("event", Js.Str "charge.success")].

(** A sequence of calls to the admission controller. *)
Inductive AdmissionCall :=
| AssignBed (req : Request AssignBedBody)
| Discharge (req : Request DischargeBody).

Definition admission_call (c : AdmissionCall) : M Response :=
  match c with
  | AssignBed req => assignBed req
  | Discharge req => dischargePatient req
  end.

Fixpoint admission_calls (cs : list AdmissionCall) (w : World)
    : list (Result Response) * World :=
  match cs with
  | [] => ([], w)
  | c :: rest =>
      let '(r, w') := admission_call c w in
      let '(rs, w'') := admission_calls rest w' in
      (r :: rs, w'')
  end.

(** The active admissions that reference the bed [bid]. *)
Definition active_on (d : Database) (bid : string) : list string :=
  map fst (List.filter
             (fun ka : string * Admission =>
                String.eqb (a_status ka.2) ADMITTED
                && bool_decide (a_bedId ka.2 = Some bid))
             (map_to_list (admissions d))).

(** One ward of hospital H1 with one room, and a nurse of that hospital. *)
Definition ward1 : Ward := mkWard "W1" "H1" "General".
Definition room1 : Room := mkRoom "R1" "W1" "101".
Definition nurse : Principal :=
  mkPrincipal "U1" "ngozi@h1.example" "NURSE" (Some "H1") "Ngozi" "Ade".

Definition free_bed (n : string) : Bed := mkBed ("B" +:+ n) "R1" n AVAILABLE None None.

Definition pending (n : string) : Admission :=
  mkAdmission ("A" +:+ n) "H1" ("P" +:+ n) None None None None "PENDING" None None None.

Definition assign (aid bid : string) : Request AssignBedBody :=
  mkRequest (Some nurse) aid (Some "10.0.0.7") None (Some "curl") (mkAssignBedBody (Some bid)).

Definition discharge (aid : string) : Request DischargeBody :=
  mkRequest (Some nurse) aid (Some "10.0.0.7") None (Some "curl") (mkDischargeBody None None).

(** Admission A1 lies in bed B1; bed B2 is free.  The store fails on its
    fifth call. *)
Definition bed1_taken : Bed := mkBed "B1" "R1" "1" OCCUPIED (Some "P1") (Some "A1").

Definition admission1_in_bed1 : Admission :=
  mkAdmission "A1" "H1" "P1" (Some "W1") (Some "R1") (Some "B1") (Some "U1") ADMITTED
              None None None.

Definition ward_db : Database :=
  mkDatabase ∅ [] {["W1" := ward1]} {["R1" := room1]}
             (<["B1" := bed1_taken]> {["B2" := free_bed "2"]})
             {["A1" := admission1_in_bed1]} ∅ ∅ [] [].

Definition failing_world : World :=
  mkWorld ward_db [] [false; false; false; false; true] ["L1"] 1000.

(** Two pending admissions and two free beds, on a healthy store. *)
Definition calm_db : Database :=
  mkDatabase ∅ [] {["W1" := ward1]} {["R1" := room1]}
             (<["B1" := free_bed "1"]> {["B3" := free_bed "3"]})
             (<["A1" := pending "1"]> {["A2" := pending "2"]}) ∅ ∅ [] [].

Definition calm_world : World :=
  mkWorld calm_db [] [] ["L1"; "L2"; "L3"; "L4"; "L5"] 1000.

Definition stale_release : list AdmissionCall :=
  [AssignBed (assign "A1" "B1"); Discharge (discharge "A1"); AssignBed (assign "A2" "B1");
   AssignBed (assign "A1" "B3"); AssignBed (assign "A1" "B1")].

(** A pharmacy of hospital H1 with one item in stock. *)
Definition pharmacist : Principal :=
  mkPrincipal "U2" "bola@h1.example" "PHARMACIST" (Some "H1") "Bola" "Eze".

Definition paracetamol : InventoryItem := mkInventoryItem "I1" "H1" "Paracetamol" 40 10.

Definition pharmacy_world : World :=
  mkWorld (set_inventoryItems {["I1" := paracetamol]} empty_db) [] [] ["L1"; "L2"] 1000.

(** A bill of 15000 of which 5000 are paid, and the payment that settles it. *)
Definition cashier : Principal :=
  mkPrincipal "U3" "chidi@h1.example" "BILLING_OFFICER" (Some "H1") "Chidi" "Okoro".

Definition first_instalment : Payment := mkPayment "PAY1" "BR1" 5000%float "CASH" None "U3".

Definition open_bill : BillingRecord :=
  mkBillingRecord "BR1" "H1" "P1" 15000%float 5000%float PARTIAL.

Definition billing_world : World :=
  mkWorld (set_payments [first_instalment]
             (set_billingRecords {["BR1" := open_bill]} empty_db))
          [] [] ["PAY2"; "L1"] 1000.

Definition settle_request : Request PaymentBody :=
  mkRequest (Some cashier) "" (Some "10.0.0.9") None None
            (mkPaymentBody (Some "BR1") (Some 10000%float) (Some "TRANSFER") None
                           (Some "PENDING")).

(** A fresh installation, and stand-ins for the token signer, the
    password hash, the HMAC and the serialiser. *)
Definition fresh_world : World := mkWorld empty_db [] [] ["U0"; "T0"] 1000.

Definition sign_plain (p : Principal) (secret expiry : string) : string :=
  id p +:+ "." +:+ role p +:+ "." +:+ secret +:+ "." +:+ expiry.

Definition hash_plain (s : string) : string := "hashed:" +:+ s.

Definition first_setup : Request SetupBody :=
  mkRequest None "" None None None
            (mkSetupBody (Some "root@example.org") (Some "correct horse")
                         (Some "Root") (Some "Admin")).

Definition mac_plain (secret text : string) : string := secret +:+ ":" +:+ text.

Definition text_plain (v : Js.value) : string := "{}".

Definition forged_webhook : WebhookRequest :=
  mkWebhookRequest (Some "forged") charge_without_data.

Definition signed_webhook : WebhookRequest :=
  mkWebhookRequest (Some "whsec:{}") charge_without_data.

Definition unsigned_webhook : WebhookRequest :=
  mkWebhookRequest None charge_without_data.

(** The platform administrator, and an ADMIN account that a SUPER_ADMIN
    created without a hospital. *)
Definition root_user : User :=
  mkUser "U0" "root@example.org" "hashed:correct horse" "Root" "Admin"
         None SUPER_ADMIN None None true.





(** * Further controllers, middleware and helpers *)

(** A plain [Error]: no handler looks at the class of what it catches. *)
Definition Error (msg : string) : Exception := TypeError msg.

(** The bodies of the answers that follow, beside the ones above. *)
Inductive Body :=
| BError (error : string)
| BTokens (accessToken refreshToken : string)
| BItems (items : list InventoryItem)
| BUserMessage (message : string) (user : User).

Record Reply := mkReply {
  r_status : Z;
  r_body : Body;
}.

Definition reply (code : Z) (b : Body) : M Reply := ret (mkReply code b).

(** ** utils/params.ts and the query helpers

    A request parameter is typed [string | string[] | undefined]; a query
    value can also be a nested object. *)
Inductive ParamValue :=
| PVUndefined
| PVString (s : string)
| PVArray (xs : list string)
| PVObject.

(** [value || ''] *)
Definition or_empty (o : option string) : string :=
  if Js.truthy_ostr o then default "" o else "".

(** [param]: [Array.isArray(value) ? value[0] || '' : value || ''] *)
Definition param (value : ParamValue) : string :=
  match value with
  | PVArray xs => or_empty (head xs)
  | PVString s => or_empty (Some s)
  | PVUndefined | PVObject => ""
  end.

Definition queryParam (value : ParamValue) : option string :=
  match value with
  | PVUndefined => None
  | PVArray xs => head xs
  | PVString s => Some s
  | PVObject => None
  end.

(** [getQueryParam] is typed for [string | string[] | undefined] only. *)
Definition getQueryParam (p : ParamValue) : option string :=
  match p with
  | PVArray xs => head xs
  | PVString s => Some s
  | PVUndefined | PVObject => None
  end.

(** [value || defaultValue] *)
Definition getQueryParamWithDefault (p : ParamValue) (defaultValue : string) : string :=
  let value := getQueryParam p in
  if Js.truthy_ostr value then default "" value else defaultValue.

(** ** middleware/auth.ts

    A middleware either hands the request on ([next()]), possibly with
    [req.user] set, or answers it.  [jsonwebtoken]'s [verify] is a
    parameter: [None] stands for any of its exceptions. *)
Inductive Passage :=
| Next (user : option Principal)
| Halt (status : Z) (error : string) (requiredRoles : list string) (userRole : option string).

Section AuthMiddleware.

Variable jwt_verify : string -> string -> option Principal.
Variable env_JWT_SECRET : option string.

(** utils/jwt.ts *)
Definition verifyAccessToken (token : string) : Result Principal :=
  match jwt_verify token (JWT_SECRET env_JWT_SECRET) with
  | Some decoded => Ok decoded
  | None => Throw (Error "Invalid or expired access token")
  end.

(** [authHeader.substring(7)] *)
Definition after_bearer (authHeader : string) : string :=
  String.substring 7 (String.length authHeader - 7) authHeader.

Definition authenticate (authorization : option string) : Passage :=
  match authorization with
  | None => Halt 401 "No token provided" [] None
  | Some authHeader =>
      if negb (Js.truthy_str authHeader) || negb (String.prefix "Bearer " authHeader) then
        Halt 401 "No token provided" [] None
      else
        match verifyAccessToken (after_bearer authHeader) with
        | Ok decoded => Next (Some decoded)
        | Throw _ => Halt 401 "Invalid or expired token" [] None
        end
  end.

(** [authorize(...allowedRoles)] *)
Definition authorize (allowedRoles : list string) (user : option Principal) : Passage :=
  match user with
  | None => Halt 401 "Authentication required" [] None
  | Some u =>
      if negb (existsb (String.eqb (role u)) allowedRoles) then
        Halt 403 "Access denied. Insufficient permissions." allowedRoles (Some (role u))
      else Next user
  end.

(** [router.use(authenticate); router.use(authorize(...))] *)
Definition guarded (allowedRoles : list string) (authorization : option string) : Passage :=
  match authenticate authorization with
  | Next user => authorize allowedRoles user
  | halt => halt
  end.

End AuthMiddleware.

(** ** middleware/auditMiddleware.ts *)

Record HttpRequest := mkHttpRequest {
  h_method : string;
  h_path : string;
  h_query : Js.value;
  h_user : option Principal;
  h_ip : option string;
  h_remoteAddress : option string;
  h_userAgent : option string;
}.

(** [s.includes(part)] *)
Definition includes (part s : string) : bool :=
  match String.index 0 part s with
  | Some _ => true
  | None => false
  end.

Definition methodsToLog : list string := ["POST"; "PUT"; "PATCH"; "DELETE"].

(** The value of the middleware is its call of [next()]. *)
Definition auditMiddleware (req : HttpRequest) : M unit :=
  (* Only log certain methods (mutations) *)
  if negb (existsb (String.eqb (h_method req)) methodsToLog) then ret tt
  (* Skip auth endpoints to avoid logging passwords *)
  else if includes "/auth/login" (h_path req) || includes "/auth/register" (h_path req) then
    ret tt
  else
    match h_user req with
    | Some u =>
        createAuditLog
          (mkAuditLogData (Some (id u))
             (if Js.truthy_ostr (hospitalId u) then hospitalId u else None)
             (h_method req +:+ " " +:+ h_path req) "API_REQUEST" None
             (Some (Js.Obj [("method", Js.Str (h_method req));
                            ("path", Js.Str (h_path req));
                            ("query", h_query req)]))
             (if Js.truthy_ostr (h_ip req) then h_ip req else h_remoteAddress req)
             (h_userAgent req))
    | None => ret tt
    end.

(** ** controllers/inventoryController.ts: the read side *)

Definition getInventoryItemById (req : Request unit) : M Response :=
  try_catch
    (match user req with
     | None => respond 401 (PError "Authentication required")
     | Some u =>
       let rowId := param_id req in
       let! found := inventoryItem_findUnique rowId in
       match found with
       | None => respond 404 (PError "Inventory item not found")
       | Some inventoryItem =>
         if tenantDenied u (Some (i_hospitalId inventoryItem)) then
           respond 403 (PError "Access denied")
         else respond 200 (PInventoryItem inventoryItem)
       end
     end)
    (fun e =>
       run! console_error "Get inventory item error:" e in
       respond 500 (PError "Failed to get inventory item")).

(** The [where] of the list endpoints: [hospitalId] is constrained when
    [req.user.role !== 'SUPER_ADMIN' && req.user.hospitalId]. *)
Definition in_scope (u : Principal) (rowHospitalId : string) : bool :=
  if negb (String.eqb (role u) SUPER_ADMIN) && Js.truthy_ostr (hospitalId u)
  then String.eqb rowHospitalId (default "" (hospitalId u))
  else true.

(** [item.stock <= item.reorderLevel] *)
Definition low_stock (i : InventoryItem) : bool := (i_stock i <=? i_reorderLevel i)%Z.

(** [orderBy: { stock: 'asc' }]; rows of equal stock come in the order the
    store yields them. *)
Fixpoint insert_by_stock (x : InventoryItem) (l : list InventoryItem) : list InventoryItem :=
  match l with
  | [] => [x]
  | y :: rest =>
      if (i_stock x <=? i_stock y)%Z then x :: y :: rest
      else y :: insert_by_stock x rest
  end.

Definition sort_by_stock (l : list InventoryItem) : list InventoryItem :=
  foldr insert_by_stock [] l.

(** [prisma.inventoryItem.findMany({ where: { ...where, stock: { lte:
    reorderLevel } }, orderBy: { stock: 'asc' } })] *)
Definition inventoryItem_findLowStock (u : Principal) : M (list InventoryItem) :=
  storage (fun d =>
    (Ok (sort_by_stock
           (List.filter (fun i => in_scope u (i_hospitalId i) && low_stock i)
                        (map snd (map_to_list (inventoryItems d))))), d)).

Definition getLowStock (req : Request unit) : M Reply :=
  try_catch
    (match user req with
     | None => reply 401 (BError "Authentication required")
     | Some u =>
       let! items := inventoryItem_findLowStock u in
       (* Manual filtering *)
       let lowStockItems := List.filter low_stock items in
       reply 200 (BItems lowStockItems)
     end)
    (fun e =>
       run! console_error "Get low stock error:" e in
       reply 500 (BError "Failed to get low stock items")).

(** *** getDashboardStats: the low stock count

    [hospitalFilter] is [{}] for a SUPER_ADMIN and
    [{ hospitalId: req.user.hospitalId || undefined }] for others. *)
Definition hospitalFilter (u : Principal) (rowHospitalId : string) : bool :=
  if String.eqb (role u) SUPER_ADMIN then true
  else if Js.truthy_ostr (hospitalId u)
       then String.eqb rowHospitalId (default "" (hospitalId u))
       else true.

Definition lowStockCount (u : Principal) : M Z :=
  let! allInventoryItems :=
    storage (fun d =>
      (Ok (List.filter (fun i => hospitalFilter u (i_hospitalId i))
                       (map snd (map_to_list (inventoryItems d)))), d)) in
  ret (Z.of_nat (length (List.filter low_stock allInventoryItems))).

(** ** controllers/authController.ts: sessions and passwords

    [bcrypt]'s [compare] and [hash] and [jsonwebtoken]'s [sign] and
    [verify] are parameters. *)

Section Sessions.

Variable jwt_sign : Principal -> string -> string -> string.
Variable jwt_verify : string -> string -> option Principal.
Variable hashPassword : string -> string.
Variable comparePassword : string -> string -> bool.
Variables env_JWT_SECRET env_JWT_REFRESH_SECRET : option string.
Variables env_JWT_EXPIRES_IN env_JWT_REFRESH_EXPIRES_IN : option string.

(** utils/jwt.ts *)
Definition verifyRefreshToken (token : string) : Result Principal :=
  match jwt_verify token (JWT_REFRESH_SECRET env_JWT_REFRESH_SECRET) with
  | Some decoded => Ok decoded
  | None => Throw (Error "Invalid or expired refresh token")
  end.

(** [prisma.refreshToken.findUnique({ where: { token } })] *)
Definition refreshToken_findUnique (token : string) : M (option RefreshToken) :=
  storage (fun d =>
    (Ok (List.find (fun r => String.eqb (rt_token r) token) (refreshTokens d)), d)).

Definition without_token (token : string) (l : list RefreshToken) : list RefreshToken :=
  List.filter (fun r => negb (String.eqb (rt_token r) token)) l.

(** [prisma.refreshToken.delete({ where: { token } })]: [P2025] when no
    row has the token. *)
Definition refreshToken_delete (token : string) : M unit :=
  storage (fun d =>
    if existsb (fun r => String.eqb (rt_token r) token) (refreshTokens d)
    then (Ok tt, set_refreshTokens (without_token token (refreshTokens d)) d)
    else (Throw (PrismaError "P2025"), d)).

(** [prisma.refreshToken.deleteMany({ where: { token } })] *)
Definition refreshToken_deleteMany (token : string) : M unit :=
  storage (fun d => (Ok tt, set_refreshTokens (without_token token (refreshTokens d)) d)).

Definition payload_of (u : User) : Principal :=
  mkPrincipal (u_id u) (u_email u) (u_role u) (u_hospitalId u) (u_firstName u) (u_lastName u).

Record RefreshBody := mkRefreshBody {
  rb_refreshToken : option string;
}.

Definition refreshTokenHandler (req : Request RefreshBody) : M Reply :=
  try_catch
    (if negb (Js.truthy_ostr (rb_refreshToken (body req))) then
       reply 400 (BError "Refresh token is required")
     else
     let refreshToken := default "" (rb_refreshToken (body req)) in
     (* Verify token *)
     let! decoded := lift (verifyRefreshToken refreshToken) in
     (* Check if token exists in database *)
     let! storedToken := refreshToken_findUnique refreshToken in
     let! t := now in
     match storedToken with
     | None => reply 401 (BError "Invalid or expired refresh token")
     | Some stored =>
       if (rt_expiresAt stored <? t)%Z then
         reply 401 (BError "Invalid or expired refresh token")
       else
       let! found := user_findUnique (id decoded) in
       match found with
       | None => reply 401 (BError "User not found or inactive")
       | Some u =>
         if negb (u_active u) then reply 401 (BError "User not found or inactive")
         else
         let newAccessToken :=
           generateAccessToken jwt_sign env_JWT_SECRET env_JWT_EXPIRES_IN (payload_of u) in
         let newRefreshToken :=
           generateRefreshToken jwt_sign env_JWT_REFRESH_SECRET env_JWT_REFRESH_EXPIRES_IN
                                (payload_of u) in
         (* Delete old refresh token *)
         run! refreshToken_delete refreshToken in
         (* Store new refresh token *)
         let! t' := now in
         run! refreshToken_create (fun i =>
                mkRefreshToken i newRefreshToken (u_id u) (seven_days_later t')) in
         reply 200 (BTokens newAccessToken newRefreshToken)
       end
     end)
    (fun e =>
       run! console_error "Refresh token error:" e in
       reply 401 (BError "Token refresh failed")).

Definition logout (req : Request RefreshBody) : M Response :=
  try_catch
    (run! (if Js.truthy_ostr (rb_refreshToken (body req))
           then refreshToken_deleteMany (default "" (rb_refreshToken (body req)))
           else ret tt) in
     run! (match user req with
           | Some u =>
               createAuditLog
                 (mkAuditLogData (Some (id u))
                    (if Js.truthy_ostr (hospitalId u) then hospitalId u else None)
                    "LOGOUT" "USER" (Some (id u)) None
                    (req_ipAddress req) (req_userAgent req))
           | None => ret tt
           end) in
     respond 200 (PMessage "Logout successful"))
    (fun e =>
       run! console_error "Logout error:" e in
       respond 500 (PError "Logout failed")).

Definition set_password (hashed : string) (u : User) : User :=
  mkUser (u_id u) (u_email u) hashed (u_firstName u) (u_lastName u) (u_phone u)
         (u_role u) (u_hospitalId u) (u_department u) (u_active u).

Record ChangePasswordBody := mkChangePasswordBody {
  oldPassword : option string;
  newPassword : option string;
}.

Definition changePassword (req : Request ChangePasswordBody) : M Response :=
  try_catch
    (match user req with
     | None => respond 401 (PError "Authentication required")
     | Some p =>
       if negb (Js.truthy_ostr (oldPassword (body req)))
          || negb (Js.truthy_ostr (newPassword (body req))) then
         respond 400 (PError "Old and new passwords are required")
       else
       let old := default "" (oldPassword (body req)) in
       let new := default "" (newPassword (body req)) in
       if (String.length new <? 8)%nat then
         respond 400 (PError "New password must be at least 8 characters")
       else
       let! found := user_findUnique (id p) in
       match found with
       | None => respond 404 (PError "User not found")
       | Some u =>
         (* Verify old password *)
         if negb (comparePassword old (u_password u)) then
           respond 401 (PError "Incorrect old password")
         else
         let hashedPassword := hashPassword new in
         run! user_update (u_id u) (set_password hashedPassword) in
         run! createAuditLog
                (mkAuditLogData (Some (u_id u))
                   (if Js.truthy_ostr (u_hospitalId u) then u_hospitalId u else None)
                   "CHANGE_PASSWORD" "USER" (Some (u_id u)) None
                   (req_ipAddress req) (req_userAgent req)) in
         respond 200 (PMessage "Password changed successfully")
       end
     end)
    (fun e =>
       run! console_error "Change password error:" e in
       respond 500 (PError "Password change failed")).

(** ** controllers/userController.ts: accounts *)

Record CreateUserBody := mkCreateUserBody {
  cu_email : option string;
  cu_password : option string;
  cu_firstName : option string;
  cu_lastName : option string;
  cu_phone : option string;
  cu_role : option string;
  cu_hospitalId : option string;
  cu_department : option string;
}.

Definition createUser (req : Request CreateUserBody) : M Response :=
  try_catch
    (match user req with
     | None => respond 401 (PError "Authentication required")
     | Some p =>
       let b := body req in
       if negb (Js.truthy_ostr (cu_email b)) || negb (Js.truthy_ostr (cu_password b))
          || negb (Js.truthy_ostr (cu_firstName b)) || negb (Js.truthy_ostr (cu_lastName b))
          || negb (Js.truthy_ostr (cu_role b)) then
         respond 400 (PError "Missing required fields")
       else
       (* Only SUPER_ADMIN can create users without hospital, others must
          match their hospital *)
       if negb (String.eqb (role p) SUPER_ADMIN)
          && (negb (Js.truthy_ostr (cu_hospitalId b))
              || negb (same_tenant (cu_hospitalId b) (hospitalId p))) then
         respond 403 (PError "You can only create users for your hospital")
       else
       let hashedPassword := hashPassword (default "" (cu_password b)) in
       let! created :=
         user_create (fun i =>
           mkUser i (default "" (cu_email b)) hashedPassword
                  (default "" (cu_firstName b)) (default "" (cu_lastName b))
                  (cu_phone b) (default "" (cu_role b)) (cu_hospitalId b)
                  (cu_department b) true) in
       run! createAuditLog
              (mkAuditLogData (Some (id p))
                 (if Js.truthy_ostr (hospitalId p) then hospitalId p else None)
                 "CREATE_USER" "USER" (Some (u_id created))
                 (Some (Js.Obj [("role", Js.Str (u_role created));
                                ("email", Js.Str (u_email created))]))
                 (req_ipAddress req) (req_userAgent req)) in
       respond 201 (PUser created)
     end)
    (fun e =>
       run! console_error "Create user error:" e in
       respond 500 (PError "Failed to create user")).

(** [data: { active: false }] *)
Definition deactivate (u : User) : User :=
  mkUser (u_id u) (u_email u) (u_password u) (u_firstName u) (u_lastName u) (u_phone u)
         (u_role u) (u_hospitalId u) (u_department u) false.

Definition deactivateUser (req : Request unit) : M Reply :=
  try_catch
    (match user req with
     | None => reply 401 (BError "Authentication required")
     | Some p =>
       let rowId := param_id req in
       let! found := user_findUnique rowId in
       match found with
       | None => reply 404 (BError "User not found")
       | Some existingUser =>
         (* ADMIN can only deactivate users from their hospital *)
         if tenantDenied p (u_hospitalId existingUser) then
           reply 403 (BError "Access denied")
         (* Prevent self-deactivation *)
         else if String.eqb rowId (id p) then
           reply 400 (BError "You cannot deactivate your own account")
         else
         let! updated := user_update rowId deactivate in
         run! createAuditLog
                (mkAuditLogData (Some (id p))
                   (if Js.truthy_ostr (hospitalId p) then hospitalId p else None)
                   "DEACTIVATE_USER" "USER" (Some (u_id updated))
                   (Some (Js.Obj [("email", Js.Str (u_email updated))]))
                   (req_ipAddress req) (req_userAgent req)) in
         reply 200 (BUserMessage "User deactivated successfully" updated)
       end
     end)
    (fun e =>
       run! console_error "Deactivate user error:" e in
       reply 500 (BError "Failed to deactivate user")).

Record ResetPasswordBody := mkResetPasswordBody {
  rp_newPassword : option string;
}.

Definition resetUserPassword (req : Request ResetPasswordBody) : M Response :=
  try_catch
    (match user req with
     | None => respond 401 (PError "Authentication required")
     | Some p =>
       let rowId := param_id req in
       if negb (Js.truthy_ostr (rp_newPassword (body req)))
          || (String.length (default "" (rp_newPassword (body req))) <? 8)%nat then
         respond 400 (PError "Password must be at least 8 characters")
       else
       let! found := user_findUnique rowId in
       match found with
       | None => respond 404 (PError "User not found")
       | Some existingUser =>
         (* ADMIN can only reset passwords for users from their hospital *)
         if tenantDenied p (u_hospitalId existingUser) then
           respond 403 (PError "Access denied")
         else
         let hashedPassword := hashPassword (default "" (rp_newPassword (body req))) in
         run! user_update rowId (set_password hashedPassword) in
         run! createAuditLog
                (mkAuditLogData (Some (id p))
                   (if Js.truthy_ostr (hospitalId p) then hospitalId p else None)
                   "RESET_PASSWORD" "USER" (Some rowId)
                   (Some (Js.Obj [("resetBy", Js.Str (email p))]))
                   (req_ipAddress req) (req_userAgent req)) in
         respond 200 (PMessage "Password reset successfully")
       end
     end)
    (fun e =>
       run! console_error "Reset password error:" e in
       respond 500 (PError "Failed to reset password")).

End Sessions.

(** ** Further scenarios *)

(** Admission A1 in bed B1 on a store that fails on its third call, and on
    a healthy store. *)
Definition discharge_fault_world : World :=
  mkWorld ward_db [] [false; false; true] ["L1"] 1000.

Definition ward_world : World :=
  mkWorld ward_db [] [] ["L1"; "L2"; "L3"] 1000.

(** A second hospital with a free bed, and the platform administrator. *)
Definition ward2 : Ward := mkWard "W2" "H2" "Surgery".
Definition room2 : Room := mkRoom "R2" "W2" "201".
Definition foreign_bed : Bed := mkBed "B9" "R2" "9" AVAILABLE None None.

Definition two_hospitals_db : Database :=
  mkDatabase ∅ [] (<["W1" := ward1]> {["W2" := ward2]})
             (<["R1" := room1]> {["R2" := room2]})
             (<["B1" := free_bed "1"]> {["B9" := foreign_bed]})
             {["A1" := pending "1"]} ∅ ∅ [] [].

Definition two_hospitals_world : World :=
  mkWorld two_hospitals_db [] [] ["L1"; "L2"] 1000.

Definition root : Principal :=
  mkPrincipal "U0" "root@example.org" SUPER_ADMIN None "Root" "Admin".

(** A store room: three items of hospital H1, two of them low, and a low
    item of hospital H2. *)
Definition gauze : InventoryItem := mkInventoryItem "I2" "H1" "Gauze" 3 10.
Definition insulin : InventoryItem := mkInventoryItem "I3" "H1" "Insulin" 0 5.
Definition saline : InventoryItem := mkInventoryItem "I4" "H2" "Saline" 1 2.

Definition store_room : World :=
  mkWorld (set_inventoryItems
             (<["I1" := paracetamol]> (<["I2" := gauze]> (<["I3" := insulin]>
                {["I4" := saline]})))
             empty_db)
          [] [] ["L1"; "L2"] 1000.

Definition read_request (u : Principal) (rowId : string) : Request unit :=
  mkRequest (Some u) rowId None None None tt.

(** Requests as the audit middleware sees them. *)
Definition http (method path : string) (u : option Principal) : HttpRequest :=
  mkHttpRequest method path (Js.Obj []) u (Some "10.0.0.7") None (Some "curl").


(** Accounts and sessions: the platform administrator, an administrator
    and a nurse of hospital H1, a stored refresh token of the nurse, and
    stand-ins for the token check and the password comparison. *)
Definition admin1 : Principal :=
  mkPrincipal "U4" "amina@h1.example" "ADMIN" (Some "H1") "Amina" "Bello".

Definition admin1_user : User :=
  mkUser "U4" "amina@h1.example" "hashed:amina's secret" "Amina" "Bello" None "ADMIN"
         (Some "H1") None true.

Definition nurse_user : User :=
  mkUser "U1" "ngozi@h1.example" "hashed:ngozi's secret" "Ngozi" "Ade" None "NURSE"
         (Some "H1") (Some "Ward 1") true.

Definition nurse_token : RefreshToken := mkRefreshToken "T1" "refresh-ngozi-1" "U1" 5000.

Definition accounts_db : Database :=
  set_refreshTokens [nurse_token]
    (set_users (<["U0" := root_user]> (<["U4" := admin1_user]> {["U1" := nurse_user]}))
               empty_db).

Definition accounts_world : World :=
  mkWorld accounts_db [] [] ["N1"; "N2"; "N3"; "N4"] 1000.

Definition verify_plain (token secret : string) : option Principal :=
  if String.eqb token "refresh-ngozi-1" then Some nurse else None.

Definition compare_plain (password hashed : string) : bool :=
  String.eqb (hash_plain password) hashed.

Definition with_token (u : option Principal) (token : string) : Request RefreshBody :=
  mkRequest u "" (Some "10.0.0.7") None None (mkRefreshBody (Some token)).

Definition change_request (p : Principal) (old new : string) : Request ChangePasswordBody :=
  mkRequest (Some p) "" (Some "10.0.0.7") None None
            (mkChangePasswordBody (Some old) (Some new)).

Definition reset_request (p : Principal) (rowId new : string) : Request ResetPasswordBody :=
  mkRequest (Some p) rowId (Some "10.0.0.7") None None (mkResetPasswordBody (Some new)).

(** An administrator of H1 asks for an account in hospital H2. *)
Definition foreign_account : Request CreateUserBody :=
  mkRequest (Some admin1) "" (Some "10.0.0.7") None None
            (mkCreateUserBody (Some "sade@h2.example") (Some "sade's secret") (Some "Sade")
                              (Some "Obi") None (Some "DOCTOR") (Some "H2") None).

(** The billing store failing on its third call. *)
Definition billing_fault_world : World :=
  mkWorld (db billing_world) [] [false; false; true] ["PAY2"; "L1"] 1000.

(** * Properties *)

(** ** The tenant scope check *)

Lemma same_tenant_true r h : same_tenant r h = true <-> r = h.
Proof. unfold same_tenant. apply bool_decide_eq_true. Qed.

Lemma tenantAccess_denied p r : tenantAccess p r = negb (tenantDenied p r).
Proof. reflexivity. Qed.






(** ** The audit recorder *)


Lemma same_records_refl d : same_records d d.
Proof. reflexivity. Qed.

Lemma same_records_audit l d : same_records d (set_auditLogs l d).
Proof. reflexivity. Qed.


(** Unfolding of the monad's operations. *)
Ltac step_monad :=
  cbv beta iota zeta delta
    [bind ret lift throw try_catch transaction storage fresh_id respond now
     console_error console_error_msg console_log].

Ltac case_existsb :=
  match goal with
  | |- context [existsb ?f ?l] => destruct (existsb f l) eqn:?
  end.

Lemma createAuditLog_step data w :
  exists w', createAuditLog data w = (Ok tt, w') /\ audit_step w w'.
Proof.
  destruct w as [d c f i t].
  unfold createAuditLog, auditLog_create, audit_step, same_records.
  step_monad. simpl.
  destruct (details_copy (ad_details data)) as [details|e]; simpl.
  2:{ eexists; split; [reflexivity|]. simpl. repeat split; eauto. }
  destruct i as [|i0 rest]; simpl.
  { eexists; split; [reflexivity|]. simpl. repeat split; eauto. }
  destruct f as [|[] fs]; simpl.
  - case_existsb; simpl;
      (eexists; split; [reflexivity|]); simpl; repeat split; eauto.
  - eexists; split; [reflexivity|]. simpl. repeat split; try discriminate; eauto.
  - case_existsb; simpl;
      (eexists; split; [reflexivity|]); simpl; repeat split; try discriminate; eauto.
Qed.

(** C3: [createAuditLog] returns normally on every input and in every
    world; when the copy of the details or the storage append throws, the
    audit log is left as it was and the failure is written to the console. *)
Theorem createAuditLog_never_throws (data : AuditLogData) (w : World) :
  exists w', createAuditLog data w = (Ok tt, w')
    /\ same_records (db w) (db w')
    /\ ((auditLogs (db w') = auditLogs (db w)
         /\ exists e, console w' =
                      console w ++ [mkLogEntry "error" "Failed to create audit log:" (Some e)])
        \/ (console w' = console w
            /\ exists row, auditLogs (db w') = auditLogs (db w) ++ [row])).
Proof.
  destruct (createAuditLog_step data w) as (w' & Hrun & Hrec & _ & _ & Hcases).
  exists w'. auto.
Qed.

(** ** Stock adjustment *)

Lemma storage_healthy {A} (op : Database -> Result A * Database) w :
  faults w = [] -> storage op w = (let '(r, d) := op (db w) in (r, set_db d w)).
Proof. intros Hf. unfold storage. rewrite Hf. reflexivity. Qed.

Lemma tenantDenied_access u r : tenantAccess u r = true -> tenantDenied u r = false.
Proof. unfold tenantAccess. destruct (tenantDenied u r); [discriminate | reflexivity]. Qed.

(** An accepted adjustment writes the computed level and answers 200. *)
Lemma updateStock_accepted req w u adj ty item :
  user req = Some u ->
  adjustment (body req) = Some adj ->
  type (body req) = Some ty ->
  Js.truthy_str ty = true ->
  faults w = [] ->
  inventoryItems (db w) !! param_id req = Some item ->
  tenantAccess u (Some (i_hospitalId item)) = true ->
  (calculate_stock (i_stock item) adj ty).2 = false ->
  let item' := set_stock (calculate_stock (i_stock item) adj ty).1 item in
  exists w',
    updateStock req w = (Ok (mkResponse 200 (PInventoryItem item')), w')
    /\ inventoryItems (db w') = <[param_id req := item']> (inventoryItems (db w))
    /\ faults w' = [].
Proof.
  intros Hu Hadj Hty Htr Hf Hitem Hacc Hcalc item'.
  apply tenantDenied_access in Hacc.
  destruct w as [d c f i t]. simpl in *. subst f.
  unfold updateStock, inventoryItem_findUnique, inventoryItem_update.
  step_monad. rewrite Hu, Hadj, Hty. simpl. rewrite Htr. simpl.
  rewrite Hitem. simpl. rewrite Hacc.
  destruct (calculate_stock (i_stock item) adj ty) as [newStock refused] eqn:Hc.
  simpl in Hcalc. subst refused. simpl. rewrite Hitem. simpl.
  match goal with
  | |- context [createAuditLog ?data ?w0] =>
      destruct (createAuditLog_step data w0) as (w1 & -> & Hrec & _ & Hfaults & _)
  end.
  exists w1. split; [reflexivity|]. split.
  - unfold same_records in Hrec. simpl in Hrec.
    apply (f_equal inventoryItems) in Hrec. simpl in Hrec. exact Hrec.
  - apply Hfaults. reflexivity.
Qed.




(** ** Payment application *)

Lemma derive_status_cases newPaid total stored :
  (PrimFloat.leb total newPaid = true -> derive_status newPaid total stored = PAID)
  /\ (PrimFloat.leb total newPaid = false -> PrimFloat.ltb 0%float newPaid = true ->
      derive_status newPaid total stored = PARTIAL)
  /\ (PrimFloat.leb total newPaid = false -> PrimFloat.ltb 0%float newPaid = false ->
      derive_status newPaid total stored = stored).
Proof.
  unfold derive_status. repeat split; intros; repeat
    match goal with H : _ = _ |- _ => rewrite H; clear H end; reflexivity.
Qed.

Lemma running_sum_snoc amounts a :
  running_sum (amounts ++ [a]) = PrimFloat.add (running_sum amounts) a.
Proof. unfold running_sum. rewrite fold_left_app. reflexivity. Qed.

Lemma payments_of_snoc bid d d' p :
  payments d' = payments d ++ [p] ->
  p_billingRecordId p = bid ->
  payments_of bid d' = payments_of bid d ++ [p_amount p].
Proof.
  intros Hp Hb. unfold payments_of. rewrite Hp.
  rewrite List.filter_app, map_app. simpl.
  rewrite Hb, String.eqb_refl. reflexivity.
Qed.


Lemma addPayment_ignores_status s req : addPayment (with_status s req) = addPayment req.
Proof. reflexivity. Qed.

(** An accepted payment, step by step. *)
Lemma addPayment_accepted (req : Request PaymentBody) (w : World) (u : Principal)
    (bid meth i : string) (a : float) (rest : list string) (b : BillingRecord) :
  user req = Some u ->
  billingRecordId (body req) = Some bid -> Js.truthy_str bid = true ->
  amount (body req) = Some a -> Js.truthy_num a = true ->
  method (body req) = Some meth -> Js.truthy_str meth = true ->
  faults w = [] ->
  uuids w = i :: rest ->
  existsb (fun r => String.eqb (p_id r) i) (payments (db w)) = false ->
  billingRecords (db w) !! bid = Some b ->
  tenantAccess u (Some (br_hospitalId b)) = true ->
  let newPaid := PrimFloat.add (br_paidAmount b) a in
  let b' := set_paid newPaid (derive_status newPaid (br_totalAmount b) (br_status b)) b in
  let pay := mkPayment i bid a meth (reference (body req)) (id u) in
  exists w',
    addPayment req w = (Ok (mkResponse 201 (PPayment pay b')), w')
    /\ billingRecords (db w') = <[bid := b']> (billingRecords (db w))
    /\ payments (db w') = payments (db w) ++ [pay]
    /\ br_paidAmount b' = PrimFloat.add (br_paidAmount b) a
    /\ (PrimFloat.leb (br_totalAmount b) newPaid = true -> br_status b' = PAID)
    /\ (PrimFloat.leb (br_totalAmount b) newPaid = false ->
        PrimFloat.ltb 0%float newPaid = true -> br_status b' = PARTIAL)
    /\ (PrimFloat.leb (br_totalAmount b) newPaid = false ->
        PrimFloat.ltb 0%float newPaid = false -> br_status b' = br_status b)
    /\ (br_paidAmount b = running_sum (payments_of bid (db w)) ->
        br_paidAmount b' = running_sum (payments_of bid (db w'))).
Proof.
  intros Hu Hbid Hbt Ha Hat Hm Hmt Hf Hids Hfresh Hb Hacc newPaid b' pay.
  apply tenantDenied_access in Hacc.
  destruct w as [d c f ids t]. simpl in *. subst f ids.
  unfold addPayment, billingRecord_findUnique, billingRecord_update, payment_create.
  step_monad. rewrite Hu, Hbid, Ha, Hm. simpl. rewrite Hbt, Hat, Hmt. simpl.
  rewrite Hb. simpl. rewrite Hacc. simpl. rewrite Hfresh. simpl. rewrite Hb. simpl.
  match goal with
  | |- context [createAuditLog ?data ?w0] =>
      destruct (createAuditLog_step data w0) as (w1 & -> & Hrec & _ & _ & _)
  end.
  unfold same_records in Hrec. simpl in Hrec.
  pose proof (f_equal billingRecords Hrec) as Hbr.
  pose proof (f_equal payments Hrec) as Hpay. simpl in Hbr, Hpay.
  exists w1. split; [reflexivity|]. split; [exact Hbr|]. split; [exact Hpay|].
  split; [reflexivity|].
  destruct (derive_status_cases newPaid (br_totalAmount b) (br_status b)) as (H1 & H2 & H3).
  split; [exact H1|]. split; [exact H2|]. split; [exact H3|].
  intros Hsum. simpl.
  rewrite (payments_of_snoc bid d (db w1) pay Hpay eq_refl).
  rewrite running_sum_snoc, <- Hsum. reflexivity.
Qed.

(** C4: on an existing billing record within the caller's reach, with a
    healthy store, [addPayment] with amount [a] answers 201, appends the
    payment and stores [paidAmount + a] together with the status derived
    from it: PAID when the new paid amount reaches the total, else PARTIAL
    when it is positive, else the stored status.  If the paid amount was
    the running sum of the record's payments, it still is; and a [status]
    sent by the client changes nothing. *)
Theorem payment_application (req : Request PaymentBody) (w : World) (u : Principal)
    (bid meth i : string) (a : float) (rest : list string) (b : BillingRecord) :
  user req = Some u ->
  billingRecordId (body req) = Some bid -> Js.truthy_str bid = true ->
  amount (body req) = Some a -> Js.truthy_num a = true ->
  method (body req) = Some meth -> Js.truthy_str meth = true ->
  faults w = [] ->
  uuids w = i :: rest ->
  existsb (fun r => String.eqb (p_id r) i) (payments (db w)) = false ->
  billingRecords (db w) !! bid = Some b ->
  tenantAccess u (Some (br_hospitalId b)) = true ->
  let newPaid := PrimFloat.add (br_paidAmount b) a in
  let b' := set_paid newPaid (derive_status newPaid (br_totalAmount b) (br_status b)) b in
  let pay := mkPayment i bid a meth (reference (body req)) (id u) in
  exists w',
    addPayment req w = (Ok (mkResponse 201 (PPayment pay b')), w')
    /\ billingRecords (db w') = <[bid := b']> (billingRecords (db w))
    /\ payments (db w') = payments (db w) ++ [pay]
    /\ br_paidAmount b' = PrimFloat.add (br_paidAmount b) a
    /\ (PrimFloat.leb (br_totalAmount b) newPaid = true -> br_status b' = PAID)
    /\ (PrimFloat.leb (br_totalAmount b) newPaid = false ->
        PrimFloat.ltb 0%float newPaid = true -> br_status b' = PARTIAL)
    /\ (PrimFloat.leb (br_totalAmount b) newPaid = false ->
        PrimFloat.ltb 0%float newPaid = false -> br_status b' = br_status b)
    /\ (br_paidAmount b = running_sum (payments_of bid (db w)) ->
        br_paidAmount b' = running_sum (payments_of bid (db w')))
    /\ (forall s, addPayment (with_status s req) w = addPayment req w).
Proof.
  intros Hu Hbid Hbt Ha Hat Hm Hmt Hf Hids Hfresh Hb Hacc newPaid b' pay.
  destruct (addPayment_accepted req w u bid meth i a rest b)
    as (w' & Hrun & Hbr & Hpay & Hpaid & HP & HQ & HR & Hsum); try assumption.
  exists w'. repeat (split; [assumption|]).
  intros s. apply (f_equal (fun h => h w)), addPayment_ignores_status.
Qed.

(** ** The bootstrap gate *)

Section AuthProperties.

Variable jwt_sign : Principal -> string -> string -> string.
Variable hashPassword : string -> string.
Variables env_JWT_SECRET env_JWT_REFRESH_SECRET : option string.
Variables env_JWT_EXPIRES_IN env_JWT_REFRESH_EXPIRES_IN : option string.

Local Abbreviation setup :=
  (initialSetup jwt_sign hashPassword env_JWT_SECRET env_JWT_REFRESH_SECRET
                env_JWT_EXPIRES_IN env_JWT_REFRESH_EXPIRES_IN).
Local Abbreviation calls :=
  (api_calls jwt_sign hashPassword env_JWT_SECRET env_JWT_REFRESH_SECRET
             env_JWT_EXPIRES_IN env_JWT_REFRESH_EXPIRES_IN).
Local Abbreviation access_token :=
  (generateAccessToken jwt_sign env_JWT_SECRET env_JWT_EXPIRES_IN).
Local Abbreviation refresh_token :=
  (generateRefreshToken jwt_sign env_JWT_REFRESH_SECRET env_JWT_REFRESH_EXPIRES_IN).


Lemma users_counted (m : gmap string User) : m <> ∅ -> (0 <? Z.of_nat (size m))%Z = true.
Proof.
  intros Hne. apply Z.ltb_lt.
  assert (size m <> 0) by (intros H0; apply Hne, map_size_empty_iff, H0). lia.
Qed.

(** With a user in the table and a healthy store the answer is 403 and
    nothing changes, whoever calls and whatever the body holds. *)
Lemma initialSetup_closed req w :
  users (db w) <> ∅ -> faults w = [] -> setup req w = (Ok setup_refused, w).
Proof.
  intros Hne Hf. destruct w as [d c f i t]. simpl in *. subst f.
  unfold initialSetup, user_count. step_monad. simpl.
  rewrite (users_counted _ Hne). reflexivity.
Qed.

(** Whatever the store does, a non-empty user table is never extended by
    the bootstrap: the answer is 403, or 500 when the count itself fails. *)
Lemma initialSetup_never_reopens req w :
  users (db w) <> ∅ ->
  exists r w', setup req w = (Ok r, w')
    /\ (status r = 403 \/ status r = 500)%Z /\ db w' = db w.
Proof.
  intros Hne. destruct w as [d c f i t]. simpl in *.
  unfold initialSetup, user_count. step_monad. simpl.
  destruct f as [|[] fs]; simpl; try rewrite (users_counted _ Hne);
    eexists _, _; (split; [reflexivity|]); simpl; auto.
Qed.

(** The first bootstrap on an empty user table. *)
Lemma initialSetup_opens req w e p f l i1 i2 rest :
  sb_email (body req) = Some e -> Js.truthy_str e = true ->
  sb_password (body req) = Some p -> (8 <= String.length p)%nat ->
  sb_firstName (body req) = Some f -> Js.truthy_str f = true ->
  sb_lastName (body req) = Some l -> Js.truthy_str l = true ->
  users (db w) = ∅ -> refreshTokens (db w) = [] ->
  faults w = [] -> uuids w = i1 :: i2 :: rest ->
  let created := mkUser i1 e (hashPassword p) f l None SUPER_ADMIN None None true in
  let payload := mkPrincipal i1 e SUPER_ADMIN None f l in
  exists w',
    setup req w
    = (Ok (mkResponse 201 (PSetup "Initial setup complete. Superadmin created."
                                  (access_token payload) (refresh_token payload) created)),
       w')
    /\ users (db w') = {[ i1 := created ]}
    /\ refreshTokens (db w')
       = [mkRefreshToken i2 (refresh_token payload) i1 (seven_days_later (clock w))]
    /\ faults w' = [].
Proof.
  intros He Het Hp Hlen Hfn Hft Hl Hlt Hu Hrt Hf Hids created payload.
  destruct w as [d c fl ids t]. simpl in *. subst fl ids.
  unfold initialSetup, user_count, user_create, refreshToken_create.
  step_monad. simpl. rewrite Hu, He, Hp, Hfn, Hl. simpl.
  rewrite map_size_empty. simpl. rewrite Het, Hft, Hlt. simpl.
  assert (Hp8 : Js.truthy_str p = true).
  { destruct p; [simpl in Hlen; lia | reflexivity]. }
  rewrite Hp8. simpl.
  assert (Hlen' : (String.length p <? 8)%nat = false) by (apply Nat.ltb_ge; exact Hlen).
  rewrite Hlen'. simpl.
  rewrite Hu, lookup_empty, map_to_list_empty. simpl. rewrite Hrt. simpl.
  eexists. split; [reflexivity|]. simpl. split; [apply insert_empty|].
  split; reflexivity.
Qed.

Lemma user_create_keeps row w r w' :
  users (db w) <> ∅ -> user_create row w = (r, w') -> users (db w') <> ∅.
Proof.
  intros Hne. destruct w as [d c f i t]. simpl in *.
  unfold user_create. step_monad. simpl.
  destruct i as [|i0 rest]; simpl; [intros [= _ <-]; exact Hne|].
  destruct f as [|[] fs]; simpl; try (intros [= _ <-]; exact Hne);
    (destruct (users d !! i0) eqn:Hi; simpl; [intros [= _ <-]; exact Hne|]);
    (case_existsb; simpl; intros [= _ <-]; simpl; [exact Hne|]);
    apply insert_non_empty.
Qed.

Lemma user_update_keeps uid f w r w' :
  users (db w) <> ∅ -> user_update uid f w = (r, w') -> users (db w') <> ∅.
Proof.
  intros Hne. destruct w as [d c fl i t]. simpl in *.
  unfold user_update. step_monad. simpl.
  destruct fl as [|[] fs]; simpl; try (intros [= _ <-]; exact Hne);
    (destruct (users d !! uid) eqn:Hi; simpl; intros [= _ <-]; simpl; [|exact Hne]);
    apply insert_non_empty.
Qed.

Lemma api_call_keeps c w r w' :
  users (db w) <> ∅ ->
  api_call jwt_sign hashPassword env_JWT_SECRET env_JWT_REFRESH_SECRET
           env_JWT_EXPIRES_IN env_JWT_REFRESH_EXPIRES_IN c w = (r, w') ->
  users (db w') <> ∅
  /\ forall resp, r = Ok (Some resp) -> (status resp = 403 \/ status resp = 500)%Z.
Proof.
  intros Hne. destruct c as [req|row|uid f]; simpl.
  - destruct (initialSetup_never_reopens req w Hne) as (r0 & w0 & Hrun & Hst & Hdb).
    unfold bind. rewrite Hrun. unfold ret. intros [= <- <-]. rewrite Hdb. split; [exact Hne|].
    intros resp [= <-]. exact Hst.
  - unfold try_catch, bind, ret.
    destruct (user_create row w) as [[u|e] w0] eqn:Hrun; intros [= <- <-];
      (split; [eapply user_create_keeps; eauto | intros resp; discriminate]).
  - unfold try_catch, bind, ret.
    destruct (user_update uid f w) as [[u|e] w0] eqn:Hrun; intros [= <- <-];
      (split; [eapply user_update_keeps; eauto | intros resp; discriminate]).
Qed.

(** Once a user exists, no sequence of bootstrap attempts and user writes
    gets a bootstrap attempt accepted, and the table never empties. *)
Lemma api_calls_closed cs : forall w,
  users (db w) <> ∅ ->
  Forall (fun r => status r = 403 \/ status r = 500)%Z (calls cs w).1
  /\ users (db (calls cs w).2) <> ∅.
Proof.
  induction cs as [|c cs IH]; intros w Hne; simpl.
  - split; [constructor | exact Hne].
  - destruct (api_call _ _ _ _ _ _ c w) as [r w1] eqn:Hcall.
    destruct (api_call_keeps c w r w1 Hne Hcall) as [Hne1 Hresp].
    specialize (IH w1 Hne1).
    destruct r as [[resp|]|e]; simpl; try exact IH.
    destruct (api_calls _ _ _ _ _ _ cs w1) as [rs w2] eqn:Hrest. simpl in *.
    destruct IH as [IHr IHu]. split; [|exact IHu].
    constructor; [apply Hresp; reflexivity | exact IHr].
Qed.

(** C6: the bootstrap answers 201 only on an empty user table; there, with
    a well-formed body and a healthy store, it creates one SUPER_ADMIN
    user and hands back the tokens signed for it; from then on, and
    whenever a user exists, every attempt in any sequence of bootstrap
    calls and user writes is refused, with 403 (500 if the count itself
    fails), whoever the caller is; with a healthy store the answer is 403
    and the world stays as it is. *)
Theorem bootstrap_gate (req : Request SetupBody) (w : World) :
  (forall r w', setup req w = (Ok r, w') -> status r = 201%Z -> users (db w) = ∅)
  /\ (forall e p f l i1 i2 rest,
        body req = mkSetupBody (Some e) (Some p) (Some f) (Some l) ->
        Js.truthy_str e = true -> (8 <= String.length p)%nat ->
        Js.truthy_str f = true -> Js.truthy_str l = true ->
        users (db w) = ∅ -> refreshTokens (db w) = [] ->
        faults w = [] -> uuids w = i1 :: i2 :: rest ->
        exists w' access refresh,
          setup req w
          = (Ok (mkResponse 201 (PSetup "Initial setup complete. Superadmin created."
                   access refresh
                   (mkUser i1 e (hashPassword p) f l None SUPER_ADMIN None None true))), w')
          /\ access = access_token (mkPrincipal i1 e SUPER_ADMIN None f l)
          /\ refresh = refresh_token (mkPrincipal i1 e SUPER_ADMIN None f l)
          /\ users (db w') = {[ i1 := mkUser i1 e (hashPassword p) f l None SUPER_ADMIN None None true ]}
          /\ refreshTokens (db w')
             = [mkRefreshToken i2 refresh i1 (seven_days_later (clock w))]
          /\ forall req', setup req' w' = (Ok setup_refused, w'))
  /\ (users (db w) <> ∅ ->
      (faults w = [] -> setup req w = (Ok setup_refused, w))
      /\ forall cs,
           Forall (fun r => status r = 403 \/ status r = 500)%Z (calls cs w).1
           /\ users (db (calls cs w).2) <> ∅).
Proof.
  split; [|split].
  - intros r w' Hrun H201.
    destruct (decide (users (db w) = ∅)) as [|Hne]; [assumption|].
    destruct (initialSetup_never_reopens req w Hne) as (r0 & w0 & Hrun0 & Hst & _).
    rewrite Hrun in Hrun0. injection Hrun0 as <- <-. lia.
  - intros e p f l i1 i2 rest Hbody He Hp Hf Hl Hu Hrt Hfl Hids.
    destruct (initialSetup_opens req w e p f l i1 i2 rest)
      as (w' & Hrun & Husers & Htokens & Hfaults);
      try assumption; try (rewrite Hbody; reflexivity).
    eexists w', _, _. split; [exact Hrun|]. split; [reflexivity|]. split; [reflexivity|].
    split; [exact Husers|]. split; [exact Htokens|].
    intros req'. apply initialSetup_closed; [|exact Hfaults].
    rewrite Husers. apply insert_non_empty.
  - intros Hne. split.
    + intros Hf. apply initialSetup_closed; assumption.
    + intros cs. apply api_calls_closed, Hne.
Qed.

End AuthProperties.

(** ** The payment webhook *)

Section PaymentsProperties.

Variable hmac_sha512_hex : string -> string -> string.
Variable JSON_stringify : Js.value -> string.
Variable PAYSTACK_WEBHOOK_SECRET : option string.

Local Abbreviation hook := (webhook hmac_sha512_hex JSON_stringify PAYSTACK_WEBHOOK_SECRET).
Local Abbreviation verifying := (verification_performed PAYSTACK_WEBHOOK_SECRET).
Local Abbreviation body_text := (stringify_body JSON_stringify).


Lemma truthy_ostr_Some o : Js.truthy_ostr o = true <-> exists s, o = Some s /\ s <> "".
Proof.
  destruct o as [s|]; simpl.
  - unfold Js.truthy_str. rewrite negb_true_iff, String.eqb_neq. split.
    + intros Hs. exists s. auto.
    + intros (s' & [= <-] & Hs). exact Hs.
  - split; [discriminate | intros (s & Hs & _); discriminate].
Qed.

Lemma verification_performed_iff req :
  verifying req = true
  <-> exists s sig, PAYSTACK_WEBHOOK_SECRET = Some s /\ s <> ""
                    /\ x_paystack_signature req = Some sig /\ sig <> "".
Proof.
  unfold verification_performed. rewrite andb_true_iff, !truthy_ostr_Some. split.
  - intros [(s & Hs & Hsne) (sig & Hsig & Hsigne)]. exists s, sig. auto.
  - intros (s & sig & Hs & Hsne & Hsig & Hsigne). split; eauto.
Qed.

(** Past the signature check every readable event is acknowledged,
    whether or not its processing throws. *)
Lemma event_acknowledged event kind w :
  Js.prop event "event" = Ok kind ->
  exists w',
    (let! _kind := lift (Js.prop event "event") in
     run! console_log "[Payment] Webhook event:" in
     try_catch
       (run! process_event event in respond 200 (PReceived true))
       (fun e =>
          run! console_error "[Payment] Webhook processing error:" e in
          respond 200 (PReceived true))) w
    = (Ok acknowledged, w').
Proof.
  intros Hkind. step_monad. rewrite Hkind.
  destruct (process_event event _) as [[[]|e] w1]; eexists; reflexivity.
Qed.

Lemma webhook_rejects req w s sig text :
  PAYSTACK_WEBHOOK_SECRET = Some s -> s <> "" ->
  x_paystack_signature req = Some sig -> sig <> "" ->
  body_text (wh_body req) = Ok text ->
  hmac_sha512_hex s text <> sig ->
  exists w', hook req w = (Ok invalid_signature, w').
Proof.
  intros Hs Hsne Hsig Hsigne Htext Hneq.
  assert (Hv : verifying req = true) by (apply verification_performed_iff; eauto 10).
  unfold webhook. step_monad. rewrite Hv, Htext, Hs, Hsig. simpl.
  apply String.eqb_neq in Hneq. rewrite Hneq. simpl. eexists; reflexivity.
Qed.

Lemma webhook_skips req w kind :
  verifying req = false ->
  Js.prop (wh_body req) "event" = Ok kind ->
  exists w', hook req w = (Ok acknowledged, w').
Proof.
  intros Hv Hkind. unfold webhook.
  destruct (event_acknowledged (wh_body req) kind w Hkind) as (w' & Hack).
  exists w'. rewrite <- Hack. unfold bind at 1. rewrite Hv. reflexivity.
Qed.

Lemma webhook_verified req w kind s sig text :
  PAYSTACK_WEBHOOK_SECRET = Some s ->
  x_paystack_signature req = Some sig ->
  body_text (wh_body req) = Ok text ->
  hmac_sha512_hex s text = sig ->
  Js.prop (wh_body req) "event" = Ok kind ->
  exists w', hook req w = (Ok acknowledged, w').
Proof.
  intros Hs Hsig Htext Heq Hkind. unfold webhook.
  destruct (event_acknowledged (wh_body req) kind w Hkind) as (w' & Hack).
  exists w'. rewrite <- Hack. unfold bind at 1.
  destruct (verifying req); [|reflexivity].
  unfold bind, lift, ret. rewrite Htext, Hs, Hsig. simpl.
  rewrite Heq, String.eqb_refl. reflexivity.
Qed.


Lemma process_event_throws w :
  exists e, process_event charge_without_data w = (Throw e, w).
Proof. eexists. reflexivity. Qed.

(** C7: with a webhook secret configured, a request that presents a
    signature other than the HMAC of its body is answered 401; a request
    whose signature verifies is answered 200 whether or not the processing
    of its event throws, and there are events whose processing does. *)
Theorem webhook_failure_handling (req : WebhookRequest) (w : World) (s sig text : string) :
  PAYSTACK_WEBHOOK_SECRET = Some s -> s <> "" ->
  x_paystack_signature req = Some sig -> sig <> "" ->
  body_text (wh_body req) = Ok text ->
  (hmac_sha512_hex s text <> sig -> exists w', hook req w = (Ok invalid_signature, w'))
  /\ (hmac_sha512_hex s text = sig ->
      forall kind, Js.prop (wh_body req) "event" = Ok kind ->
      (exists w', hook req w = (Ok acknowledged, w'))
      /\ forall w0 e w1, process_event (wh_body req) w0 = (Throw e, w1) ->
           exists w', hook req w = (Ok acknowledged, w'))
  /\ exists e, process_event charge_without_data w = (Throw e, w).
Proof.
  intros Hs Hsne Hsig Hsigne Htext. split; [|split].
  - intros Hneq. eapply webhook_rejects; eauto.
  - intros Heq kind Hkind.
    assert (Hack : exists w', hook req w = (Ok acknowledged, w'))
      by (eapply webhook_verified; eauto).
    split; [exact Hack | intros; exact Hack].
  - apply process_event_throws.
Qed.

(** C8: the signature is verified exactly when the secret is configured
    (and not empty) and the request carries a (non-empty) signature
    header; when either is absent, a readable event is processed and
    acknowledged with 200; the handler answers 401 only when a configured
    secret and a presented signature exist and the signature is not the
    HMAC of the body. *)
Theorem webhook_verification_gate (req : WebhookRequest) (w : World) :
  (verifying req = true
   <-> exists s sig, PAYSTACK_WEBHOOK_SECRET = Some s /\ s <> ""
                     /\ x_paystack_signature req = Some sig /\ sig <> "")
  /\ (PAYSTACK_WEBHOOK_SECRET = None \/ x_paystack_signature req = None ->
      verifying req = false
      /\ forall kind, Js.prop (wh_body req) "event" = Ok kind ->
           exists w', hook req w = (Ok acknowledged, w'))
  /\ (forall r w', hook req w = (Ok r, w') -> status r = 401%Z ->
      exists s sig text,
        PAYSTACK_WEBHOOK_SECRET = Some s /\ x_paystack_signature req = Some sig
        /\ body_text (wh_body req) = Ok text /\ hmac_sha512_hex s text <> sig).
Proof.
  split; [apply verification_performed_iff|]. split.
  - intros Habsent.
    assert (Hv : verifying req = false).
    { unfold verification_performed.
      destruct Habsent as [-> | ->]; simpl; [reflexivity | apply andb_false_r]. }
    split; [exact Hv|]. intros kind Hkind. eapply webhook_skips; eauto.
  - intros r w' Hrun H401. unfold webhook in Hrun.
    destruct (verifying req) eqn:Hv.
    + apply verification_performed_iff in Hv as (s & sig & Hs & _ & Hsig & _).
      revert Hrun. step_monad.
      destruct (body_text (wh_body req)) as [text|e] eqn:Htext; [|discriminate].
      rewrite Hs, Hsig. simpl.
      destruct (String.eqb (hmac_sha512_hex s text) sig) eqn:Heq; simpl.
      * destruct (Js.prop (wh_body req) "event"); [|discriminate].
        destruct (process_event _ _) as [[[]|e] w1]; intros [= <- <-]; discriminate.
      * intros _. exists s, sig, text. apply String.eqb_neq in Heq. auto.
    + revert Hrun. step_monad.
      destruct (Js.prop (wh_body req) "event"); [|discriminate].
      destruct (process_event _ _) as [[[]|e] w1]; intros [= <- <-]; discriminate.
Qed.

End PaymentsProperties.

(** ** Bed occupancy on the dashboard *)



(** [round_half_up n d] is the integer nearest to [n / d], the upper one
    of the two when [n / d] lies half-way. *)
Lemma round_half_up_nearest n d :
  (0 < d)%Z ->
  (2 * d * Js.round_half_up n d <= 2 * n + d < 2 * d * (Js.round_half_up n d + 1))%Z.
Proof.
  intros Hd. unfold Js.round_half_up.
  pose proof (Z.div_mod (2 * n + d) (2 * d) ltac:(lia)) as Hdm.
  pose proof (Z.mod_pos_bound (2 * n + d) (2 * d) ltac:(lia)) as Hmod.
  lia.
Qed.


Lemma occupancyPercentage_no_beds total occupied :
  (total <= 0)%Z -> occupancyPercentage total occupied = 0%float.
Proof.
  intros Hle. unfold occupancyPercentage.
  apply Z.ltb_ge in Hle. rewrite Hle. reflexivity.
Qed.

(** The rounding is that of [Math.round] on doubles: a tie goes up, and
    the quotient is rounded before it is scaled. *)
Example occupancy_quarter : occupancyPercentage 4 1 = 25%float.
Proof. vm_compute. reflexivity. Qed.

Example occupancy_third : occupancyPercentage 3 1 = 33%float.
Proof. vm_compute. reflexivity. Qed.

Example occupancy_two_thirds : occupancyPercentage 3 2 = 67%float.
Proof. vm_compute. reflexivity. Qed.

Example occupancy_tie_goes_up : occupancyPercentage 8 1 = 13%float.
Proof. vm_compute. reflexivity. Qed.

Example occupancy_double_rounding : occupancyPercentage 200 29 = 14%float.
Proof. vm_compute. reflexivity. Qed.

Example occupancy_full : occupancyPercentage 7 7 = 100%float.
Proof. vm_compute. reflexivity. Qed.


(** ** Bed assignment *)

(** Case analysis on the innermost scrutinee of the goal. *)
Ltac break_innermost :=
  match goal with
  | |- context [match ?x with _ => _ end] =>
      lazymatch x with
      | context [match _ with _ => _ end] => fail
      | _ => destruct x eqn:?
      end
  end.

Ltac audit_returns :=
  match goal with
  | |- context [createAuditLog ?data ?w0] =>
      let w1 := fresh "w" in
      let Hrec := fresh "Hrec" in
      destruct (createAuditLog_step data w0) as (w1 & -> & Hrec & _)
  end.

(** The tenant check as the two cited controllers apply it. *)
Lemma assignBed_tenant_denied req w u bid a :
  user req = Some u ->
  ab_bedId (body req) = Some bid -> Js.truthy_str bid = true ->
  faults w = [] ->
  admissions (db w) !! param_id req = Some a ->
  tenantAccess u (Some (a_hospitalId a)) = false ->
  assignBed req w = (Ok (mkResponse 403 (PError "Access denied")), w).
Proof.
  intros Hu Hbid Hbt Hf Ha Hacc. unfold tenantAccess in Hacc.
  apply negb_false_iff in Hacc.
  destruct w as [d c f i t]. simpl in *. subst f.
  unfold assignBed, admission_findUnique. step_monad.
  rewrite Hu, Hbid. simpl. rewrite Hbt. simpl. rewrite Ha. simpl. rewrite Hacc. reflexivity.
Qed.

Lemma updateStock_tenant_denied req w u adj ty item :
  user req = Some u ->
  adjustment (body req) = Some adj ->
  type (body req) = Some ty -> Js.truthy_str ty = true ->
  faults w = [] ->
  inventoryItems (db w) !! param_id req = Some item ->
  tenantAccess u (Some (i_hospitalId item)) = false ->
  updateStock req w = (Ok (mkResponse 403 (PError "Access denied")), w).
Proof.
  intros Hu Hadj Hty Htt Hf Hitem Hacc. unfold tenantAccess in Hacc.
  apply negb_false_iff in Hacc.
  destruct w as [d c f i t]. simpl in *. subst f.
  unfold updateStock, inventoryItem_findUnique. step_monad.
  rewrite Hu, Hadj, Hty. simpl. rewrite Htt. simpl. rewrite Hitem. simpl.
  rewrite Hacc. reflexivity.
Qed.

(** A principal that passes the check is never answered 403 by them. *)
Lemma assignBed_tenant_granted req w u a r w' :
  user req = Some u ->
  admissions (db w) !! param_id req = Some a ->
  tenantAccess u (Some (a_hospitalId a)) = true ->
  assignBed req w = (Ok r, w') -> status r <> 403%Z.
Proof.
  intros Hu Ha Hacc. apply tenantDenied_access in Hacc.
  destruct w as [d c f i t]. simpl in *.
  unfold assignBed, admission_findUnique, admission_update, bed_findUnique, bed_update.
  step_monad. rewrite Hu. simpl.
  repeat (first [ audit_returns | break_innermost ]; simpl in *; subst; simpl in *;
          try (rewrite Ha in *; simplify_eq);
          try (rewrite Hacc in *; discriminate));
    intros [= <- <-]; simpl; discriminate.
Qed.

Lemma updateStock_tenant_granted req w u item r w' :
  user req = Some u ->
  inventoryItems (db w) !! param_id req = Some item ->
  tenantAccess u (Some (i_hospitalId item)) = true ->
  updateStock req w = (Ok r, w') -> status r <> 403%Z.
Proof.
  intros Hu Hitem Hacc. apply tenantDenied_access in Hacc.
  destruct w as [d c f i t]. simpl in *.
  unfold updateStock, inventoryItem_findUnique, inventoryItem_update.
  step_monad. rewrite Hu. simpl.
  repeat (first [ audit_returns | break_innermost ]; simpl in *; subst; simpl in *;
          try (rewrite Hitem in *; simplify_eq);
          try (rewrite Hacc in *; discriminate));
    intros [= <- <-]; simpl; discriminate.
Qed.

Lemma transaction_all_or_nothing {A} (m : M A) w e w' :
  transaction m w = (Throw e, w') -> db w' = db w.
Proof.
  unfold transaction. destruct (m w) as [[a|e0] w0]; [discriminate|].
  intros [= _ <-]. reflexivity.
Qed.

(** X1: The sibling controller: a discharge that is not answered 200 has
    written nothing, since both of its writes are inside the transaction. *)
Lemma dischargePatient_atomic req w r w' :
  dischargePatient req w = (Ok r, w') -> status r <> 200%Z -> db w' = db w.
Proof.
  destruct w as [d c f i t].
  unfold dischargePatient, admission_findUnique, admission_update, bed_update.
  step_monad. simpl.
  repeat (first [ audit_returns | break_innermost ]; simpl in *; subst; simpl in *);
    try (intros [= <- <-]; simpl; intros Hs;
         solve [reflexivity | congruence | exfalso; apply Hs; reflexivity]).
Qed.

Lemma assignBed_total req w : exists r w', assignBed req w = (Ok r, w').
Proof.
  destruct w as [d c f i t].
  unfold assignBed, admission_findUnique, admission_update, bed_findUnique, bed_update.
  step_monad. simpl.
  repeat (first [ audit_returns | break_innermost ]; simpl in *; subst; simpl in * );
    eexists _, _; reflexivity.
Qed.

(** Whenever the admission already lies in a bed and the store fails on
    the first write of the transaction, the old bed has been released and
    nothing else has been written. *)
Lemma assignBed_partial_on_fault req w u bid a b rm wd old ob fs :
  user req = Some u ->
  ab_bedId (body req) = Some bid -> Js.truthy_str bid = true ->
  admissions (db w) !! param_id req = Some a ->
  tenantAccess u (Some (a_hospitalId a)) = true ->
  beds (db w) !! bid = Some b ->
  rooms (db w) !! b_roomId b = Some rm ->
  wards (db w) !! r_wardId rm = Some wd ->
  w_hospitalId wd = a_hospitalId a ->
  b_status b = AVAILABLE ->
  a_bedId a = Some old -> Js.truthy_str old = true ->
  beds (db w) !! old = Some ob ->
  faults w = false :: false :: false :: true :: fs ->
  exists w',
    assignBed req w = (Ok (mkResponse 500 (PError "Failed to assign bed")), w')
    /\ beds (db w') = <[old := release_bed ob]> (beds (db w))
    /\ admissions (db w') = admissions (db w).
Proof.
  intros Hu Hbid Hbt Ha Hacc Hb Hr Hw Hh Hst Hold Hot Hob Hf.
  apply tenantDenied_access in Hacc.
  destruct w as [d c f i t]. simpl in *. subst f.
  unfold assignBed, admission_findUnique, admission_update, bed_findUnique, bed_update.
  step_monad. rewrite Hu, Hbid. simpl. rewrite Hbt. simpl. rewrite Ha. simpl.
  rewrite Hacc. simpl. rewrite Hb. simpl. rewrite Hr, Hw. simpl.
  rewrite Hh, Hst, !String.eqb_refl, Hold. simpl. rewrite Hot. simpl. rewrite Hob. simpl.
  eexists. split; [reflexivity|]. split; reflexivity.
Qed.

(** C2, on the code: the old bed is released by a write of its own, before
    the transaction starts.  Admission A1 lies in bed B1 and is moved to
    the free bed B2; the store fails inside the transaction.  The request
    is answered 500, the transaction is rolled back (A1 still references
    B1, B2 is still free), and B1 stays released. *)
Theorem assignBed_release_outside_transaction :
  admissions (db failing_world) !! "A1" = Some admission1_in_bed1
  /\ beds (db failing_world) !! "B1" = Some bed1_taken
  /\ (assignBed (assign "A1" "B2") failing_world).1
     = Ok (mkResponse 500 (PError "Failed to assign bed"))
  /\ admissions (db (assignBed (assign "A1" "B2") failing_world).2) !! "A1"
     = Some admission1_in_bed1
  /\ beds (db (assignBed (assign "A1" "B2") failing_world).2) !! "B2"
     = Some (free_bed "2")
  /\ beds (db (assignBed (assign "A1" "B2") failing_world).2) !! "B1"
     = Some (release_bed bed1_taken)
  /\ active_on (db (assignBed (assign "A1" "B2") failing_world).2) "B1" = ["A1"].
Proof. vm_compute. repeat split; reflexivity. Qed.

(** X4: The guard of [assignBed]: a bed that is not AVAILABLE is never
    assigned, and the refusal comes before any write. *)
Lemma assignBed_unavailable_untouched req w bid b r w' :
  ab_bedId (body req) = Some bid ->
  beds (db w) !! bid = Some b ->
  b_status b <> AVAILABLE ->
  assignBed req w = (Ok r, w') ->
  status r <> 200%Z /\ db w' = db w.
Proof.
  intros Hbid Hbed Hst. destruct w as [d c f i t]. simpl in *.
  apply String.eqb_neq in Hst.
  unfold assignBed, admission_findUnique, bed_findUnique.
  step_monad. rewrite Hbid. simpl.
  repeat (break_innermost; simpl in *; subst; simpl in *;
          try (rewrite Hbed in *; simplify_eq);
          try (rewrite Hst in *; simpl in *; discriminate));
    intros [= <- <-]; simpl; (split; [discriminate | reflexivity]).
Qed.

Lemma assignBed_occupied_rejected req w u bid a b rm wd :
  user req = Some u ->
  ab_bedId (body req) = Some bid -> Js.truthy_str bid = true ->
  faults w = [] ->
  admissions (db w) !! param_id req = Some a ->
  tenantAccess u (Some (a_hospitalId a)) = true ->
  beds (db w) !! bid = Some b ->
  rooms (db w) !! b_roomId b = Some rm ->
  wards (db w) !! r_wardId rm = Some wd ->
  w_hospitalId wd = a_hospitalId a ->
  b_status b <> AVAILABLE ->
  assignBed req w = (Ok (mkResponse 400 (PError "Bed is not available")), w).
Proof.
  intros Hu Hbid Hbt Hf Ha Hacc Hb Hr Hw Hh Hst.
  apply tenantDenied_access in Hacc. apply String.eqb_neq in Hst.
  destruct w as [d c f i t]. simpl in *. subst f.
  unfold assignBed, admission_findUnique, bed_findUnique. step_monad.
  rewrite Hu, Hbid. simpl. rewrite Hbt. simpl. rewrite Ha. simpl. rewrite Hacc. simpl.
  rewrite Hb. simpl. rewrite Hr, Hw. simpl. rewrite Hh, String.eqb_refl, Hst. reflexivity.
Qed.

(** C9, on the code: the guard looks at the status of the bed, and
    [assignBed] releases the bed that the admission row names, whoever
    lies in it.  A1 is given bed B1 and discharged (its row keeps B1); A2
    is given B1; A1 is assigned bed B3, which releases B1 under A2; A1 is
    then assigned B1.  Every call is answered 200, and two active
    admissions reference B1. *)
Theorem bed_shared_after_stale_release :
  active_on (db calm_world) "B1" = []
  /\ map (fun r => match r with Ok resp => status resp | Throw _ => 0%Z end)
         (admission_calls stale_release calm_world).1
     = [200; 200; 200; 200; 200]%Z
  /\ active_on (db (admission_calls (firstn 3 stale_release) calm_world).2) "B1" = ["A2"]
  /\ beds (db (admission_calls (firstn 4 stale_release) calm_world).2) !! "B1"
     = Some (free_bed "1")
  /\ active_on (db (admission_calls (firstn 4 stale_release) calm_world).2) "B1" = ["A2"]
  /\ active_on (db (admission_calls stale_release calm_world).2) "B1" = ["A1"; "A2"].
Proof. vm_compute. repeat split; reflexivity. Qed.

(** ** The statements above at concrete inputs *)


Lemma payment_application_witness :
  tenantAccess cashier (Some (br_hospitalId open_bill)) = true
  /\ billingRecords (db billing_world) !! "BR1" = Some open_bill
  /\ br_paidAmount open_bill = running_sum (payments_of "BR1" (db billing_world))
  /\ exists w',
       addPayment settle_request billing_world
       = (Ok (mkResponse 201
                (PPayment (mkPayment "PAY2" "BR1" 10000%float "TRANSFER" None "U3")
                          (mkBillingRecord "BR1" "H1" "P1" 15000%float 15000%float PAID))),
          w')
       /\ running_sum (payments_of "BR1" (db w')) = 15000%float.
Proof.
  destruct (payment_application settle_request billing_world cashier "BR1" "TRANSFER" "PAY2"
              10000%float ["L1"] open_bill
              eq_refl eq_refl eq_refl eq_refl eq_refl eq_refl eq_refl eq_refl eq_refl
              eq_refl eq_refl eq_refl)
    as (w' & Hrun & _ & _ & _ & _ & _ & _ & Hsum & _).
  split; [reflexivity|]. split; [reflexivity|]. split; [reflexivity|].
  exists w'. split; [exact Hrun|].
  rewrite <- Hsum; reflexivity.
Defined.

Lemma bootstrap_gate_witness :
  users (db fresh_world) = ∅
  /\ exists w' access refresh,
       initialSetup sign_plain hash_plain None None None None first_setup fresh_world
       = (Ok (mkResponse 201
                (PSetup "Initial setup complete. Superadmin created." access refresh
                   (mkUser "U0" "root@example.org" "hashed:correct horse" "Root" "Admin"
                           None SUPER_ADMIN None None true))), w')
       /\ initialSetup sign_plain hash_plain None None None None first_setup w'
          = (Ok setup_refused, w').
Proof.
  destruct (bootstrap_gate sign_plain hash_plain None None None None first_setup fresh_world)
    as (_ & Hopen & _).
  destruct (Hopen "root@example.org" "correct horse" "Root" "Admin" "U0" "T0" [])
    as (w' & access & refresh & Hrun & _ & _ & _ & _ & Hclosed);
    try reflexivity; try (simpl; lia).
  split; [reflexivity|]. exists w', access, refresh. split; [exact Hrun | apply Hclosed].
Defined.

Lemma webhook_failure_handling_witness :
  (exists w', webhook mac_plain text_plain (Some "whsec") forged_webhook fresh_world
              = (Ok invalid_signature, w'))
  /\ (exists e, process_event (wh_body signed_webhook) fresh_world = (Throw e, fresh_world))
  /\ (exists w', webhook mac_plain text_plain (Some "whsec") signed_webhook fresh_world
                 = (Ok acknowledged, w')).
Proof.
  destruct (webhook_failure_handling mac_plain text_plain (Some "whsec") forged_webhook
              fresh_world "whsec" "forged" "{}" eq_refl) as (Hreject & _ & Hthrows);
    try reflexivity; try discriminate.
  destruct (webhook_failure_handling mac_plain text_plain (Some "whsec") signed_webhook
              fresh_world "whsec" "whsec:{}" "{}" eq_refl) as (_ & Hack & _);
    try reflexivity; try discriminate.
  split; [apply Hreject; discriminate|]. split; [exact Hthrows|].
  apply (Hack eq_refl (Js.Str "charge.success")). reflexivity.
Defined.

Lemma webhook_verification_gate_witness :
  verification_performed None unsigned_webhook = false
  /\ exists w', webhook mac_plain text_plain None unsigned_webhook fresh_world
                = (Ok acknowledged, w').
Proof.
  destruct (webhook_verification_gate mac_plain text_plain None unsigned_webhook fresh_world)
    as (_ & Hskip & _).
  destruct (Hskip (or_introl eq_refl)) as [Hv Hack].
  split; [exact Hv|]. apply (Hack (Js.Str "charge.success")). reflexivity.
Defined.


(** * Further properties *)

(** ** Discharge and bed assignment *)

Lemma dischargePatient_atomic_witness :
  (dischargePatient (discharge "A1") discharge_fault_world).1
  = Ok (mkResponse 500 (PError "Failed to discharge patient"))
  /\ db (dischargePatient (discharge "A1") discharge_fault_world).2
     = db discharge_fault_world.
Proof.
  split; [reflexivity|].
  apply (dischargePatient_atomic (discharge "A1") discharge_fault_world
           (mkResponse 500 (PError "Failed to discharge patient"))).
  - vm_compute. reflexivity.
  - discriminate.
Defined.

Lemma dischargePatient_accepted req w u a bid b :
  user req = Some u ->
  faults w = [] ->
  admissions (db w) !! param_id req = Some a ->
  tenantAccess u (Some (a_hospitalId a)) = true ->
  a_status a <> DISCHARGED ->
  a_bedId a = Some bid -> Js.truthy_str bid = true ->
  beds (db w) !! bid = Some b ->
  let a' := discharge_admission (clock w) (dischargeNotes (body req))
                                (dischargeSummary (body req)) a in
  exists w',
    dischargePatient req w = (Ok (mkResponse 200 (PAdmission a')), w')
    /\ admissions (db w') = <[param_id req := a']> (admissions (db w))
    /\ beds (db w') = <[bid := release_bed b]> (beds (db w))
    /\ a_status a' = DISCHARGED /\ a_bedId a' = Some bid
    /\ faults w' = [].
Proof.
  intros Hu Hf Ha Hacc Hst Hbid Hbt Hb a'.
  apply tenantDenied_access in Hacc. apply String.eqb_neq in Hst.
  destruct w as [d c f i t]. simpl in *. subst f.
  unfold dischargePatient, admission_findUnique, admission_update, bed_update.
  step_monad. rewrite Hu. simpl. rewrite Ha. simpl. rewrite Hacc, Hst. simpl.
  rewrite Ha, Hbid. simpl. rewrite Hbt. simpl. rewrite Hb. simpl.
  match goal with
  | |- context [createAuditLog ?data ?w0] =>
      destruct (createAuditLog_step data w0) as (w1 & -> & Hrec & _ & Hfaults & _)
  end.
  unfold same_records in Hrec. simpl in Hrec.
  exists w1. split; [reflexivity|].
  split; [exact (f_equal admissions Hrec)|]. split; [exact (f_equal beds Hrec)|].
  split; [reflexivity|]. split; [reflexivity|]. apply Hfaults. reflexivity.
Qed.

(** X2: A discharge on a healthy store: the admission row becomes DISCHARGED
    at the current time and keeps its bed id, its bed is released and no
    other bed changes. *)
Theorem dischargePatient_releases req w u a bid b :
  user req = Some u ->
  faults w = [] ->
  admissions (db w) !! param_id req = Some a ->
  tenantAccess u (Some (a_hospitalId a)) = true ->
  a_status a <> DISCHARGED ->
  a_bedId a = Some bid -> Js.truthy_str bid = true ->
  beds (db w) !! bid = Some b ->
  exists a' w',
    dischargePatient req w = (Ok (mkResponse 200 (PAdmission a')), w')
    /\ admissions (db w') !! param_id req = Some a'
    /\ a_status a' = DISCHARGED /\ a_dischargeDate a' = Some (clock w)
    /\ a_bedId a' = Some bid
    /\ beds (db w') !! bid = Some (release_bed b)
    /\ (forall other, other <> bid -> beds (db w') !! other = beds (db w) !! other).
Proof.
  intros Hu Hf Ha Hacc Hst Hbid Hbt Hb.
  destruct (dischargePatient_accepted req w u a bid b Hu Hf Ha Hacc Hst Hbid Hbt Hb)
    as (w' & Hrun & Hadm & Hbeds & Hst' & Hbid' & _).
  eexists _, w'. split; [exact Hrun|].
  split; [rewrite Hadm; apply lookup_insert_eq|].
  split; [exact Hst'|]. split; [reflexivity|]. split; [exact Hbid'|].
  split; [rewrite Hbeds; apply lookup_insert_eq|].
  intros other Hother. rewrite Hbeds. apply lookup_insert_ne. congruence.
Qed.

Lemma dischargePatient_releases_witness :
  exists a' w',
    dischargePatient (discharge "A1") ward_world = (Ok (mkResponse 200 (PAdmission a')), w')
    /\ admissions (db w') !! "A1" = Some a'
    /\ a_status a' = DISCHARGED /\ a_dischargeDate a' = Some 1000%Z
    /\ a_bedId a' = Some "B1"
    /\ beds (db w') !! "B1" = Some (release_bed bed1_taken)
    /\ (forall other, other <> "B1" -> beds (db w') !! other = beds (db ward_world) !! other).
Proof.
  apply (dischargePatient_releases (discharge "A1") ward_world nurse admission1_in_bed1
           "B1" bed1_taken); try reflexivity; discriminate.
Defined.

(** A discharged admission cannot be discharged again. *)
Lemma dischargePatient_refused req w u a :
  user req = Some u ->
  faults w = [] ->
  admissions (db w) !! param_id req = Some a ->
  tenantAccess u (Some (a_hospitalId a)) = true ->
  a_status a = DISCHARGED ->
  dischargePatient req w = (Ok (mkResponse 400 (PError "Patient already discharged")), w).
Proof.
  intros Hu Hf Ha Hacc Hst. apply tenantDenied_access in Hacc.
  destruct w as [d c f i t]. simpl in *. subst f.
  unfold dischargePatient, admission_findUnique. step_monad.
  rewrite Hu. simpl. rewrite Ha. simpl. rewrite Hacc, Hst. reflexivity.
Qed.

(** X3: After a discharge, a second discharge of the same admission, by any
    principal of the hospital and with any notes, is answered 400 and
    changes nothing. *)
Theorem dischargePatient_once req req' w u u' a bid b :
  user req = Some u -> user req' = Some u' -> param_id req' = param_id req ->
  faults w = [] ->
  admissions (db w) !! param_id req = Some a ->
  tenantAccess u (Some (a_hospitalId a)) = true ->
  tenantAccess u' (Some (a_hospitalId a)) = true ->
  a_status a <> DISCHARGED ->
  a_bedId a = Some bid -> Js.truthy_str bid = true ->
  beds (db w) !! bid = Some b ->
  exists r w',
    dischargePatient req w = (Ok r, w') /\ status r = 200%Z
    /\ dischargePatient req' w'
       = (Ok (mkResponse 400 (PError "Patient already discharged")), w').
Proof.
  intros Hu Hu' Hid Hf Ha Hacc Hacc' Hst Hbid Hbt Hb.
  destruct (dischargePatient_accepted req w u a bid b)
    as (w' & Hrun & Hadm & _ & Hst' & _ & Hf'); try assumption.
  eexists _, w'. split; [exact Hrun|]. split; [reflexivity|].
  apply (dischargePatient_refused req' w' u'
           (discharge_admission (clock w) (dischargeNotes (body req))
                                (dischargeSummary (body req)) a));
    try assumption.
  rewrite Hid, Hadm. apply lookup_insert_eq.
Qed.

Lemma dischargePatient_once_witness :
  exists r w',
    dischargePatient (discharge "A1") ward_world = (Ok r, w') /\ status r = 200%Z
    /\ dischargePatient (discharge "A1") w'
       = (Ok (mkResponse 400 (PError "Patient already discharged")), w').
Proof.
  apply (dischargePatient_once (discharge "A1") (discharge "A1") ward_world nurse nurse
           admission1_in_bed1 "B1" bed1_taken); try reflexivity; discriminate.
Defined.

Lemma assignBed_unavailable_untouched_witness :
  ab_bedId (body (assign "A1" "B1")) = Some "B1"
  /\ beds (db ward_world) !! "B1" = Some bed1_taken
  /\ status (mkResponse 400 (PError "Bed is not available")) <> 200%Z
  /\ db (assignBed (assign "A1" "B1") ward_world).2 = db ward_world.
Proof.
  destruct (assignBed_unavailable_untouched (assign "A1" "B1") ward_world "B1" bed1_taken
              (mkResponse 400 (PError "Bed is not available"))
              (assignBed (assign "A1" "B1") ward_world).2 eq_refl eq_refl)
    as [Hst Hdb]; [discriminate | vm_compute; reflexivity |].
  split; [reflexivity|]. split; [reflexivity|]. split; [exact Hst | exact Hdb].
Defined.

(** X5: The first bed of an admission, on a healthy store: the admission is
    ADMITTED in the bed's ward, room and bed under the caller as ward
    manager; the bed is OCCUPIED by the admission and its patient; no
    other row is written. *)
Theorem assignBed_admits req w u bid a b rm wd :
  user req = Some u ->
  ab_bedId (body req) = Some bid -> Js.truthy_str bid = true ->
  faults w = [] ->
  admissions (db w) !! param_id req = Some a ->
  tenantAccess u (Some (a_hospitalId a)) = true ->
  beds (db w) !! bid = Some b ->
  rooms (db w) !! b_roomId b = Some rm ->
  wards (db w) !! r_wardId rm = Some wd ->
  w_hospitalId wd = a_hospitalId a ->
  b_status b = AVAILABLE ->
  a_bedId a = None ->
  let a' := place_admission (r_wardId rm) (b_roomId b) (b_id b) (id u) a in
  let b' := occupy_bed (a_patientId a) (param_id req) b in
  exists w',
    assignBed req w = (Ok (mkResponse 200 (PAdmission a')), w')
    /\ admissions (db w') = <[param_id req := a']> (admissions (db w))
    /\ beds (db w') = <[bid := b']> (beds (db w))
    /\ a_status a' = ADMITTED
    /\ b_status b' = OCCUPIED /\ b_currentAdmissionId b' = Some (param_id req).
Proof.
  intros Hu Hbid Hbt Hf Ha Hacc Hb Hr Hw Hh Hst Hold a' b'.
  apply tenantDenied_access in Hacc.
  destruct w as [d c f i t]. simpl in *. subst f.
  unfold assignBed, admission_findUnique, admission_update, bed_findUnique, bed_update.
  step_monad. rewrite Hu, Hbid. simpl. rewrite Hbt. simpl. rewrite Ha. simpl.
  rewrite Hacc. simpl. rewrite Hb. simpl. rewrite Hr, Hw. simpl.
  rewrite Hh, Hst, !String.eqb_refl, Hold. simpl. rewrite Ha. simpl. rewrite Hb. simpl.
  match goal with
  | |- context [createAuditLog ?data ?w0] =>
      destruct (createAuditLog_step data w0) as (w1 & -> & Hrec & _)
  end.
  unfold same_records in Hrec. simpl in Hrec.
  exists w1. split; [reflexivity|].
  split; [exact (f_equal admissions Hrec)|]. split; [exact (f_equal beds Hrec)|].
  repeat split.
Qed.

Lemma assignBed_admits_witness :
  exists w',
    (assignBed (assign "A1" "B1") calm_world).1
    = Ok (mkResponse 200
            (PAdmission (place_admission "W1" "R1" "B1" "U1" (pending "1"))))
    /\ assignBed (assign "A1" "B1") calm_world
       = (Ok (mkResponse 200
                (PAdmission (place_admission "W1" "R1" "B1" "U1" (pending "1")))), w')
    /\ beds (db w') !! "B1" = Some (occupy_bed "P1" "A1" (free_bed "1"))
    /\ active_on (db w') "B1" = ["A1"].
Proof.
  destruct (assignBed_admits (assign "A1" "B1") calm_world nurse "B1" (pending "1")
              (free_bed "1") room1 ward1 eq_refl eq_refl eq_refl eq_refl eq_refl eq_refl
              eq_refl eq_refl eq_refl eq_refl eq_refl eq_refl)
    as (w' & Hrun & Hadm & Hbeds & _).
  exists w'. split; [rewrite Hrun; reflexivity|]. split; [exact Hrun|].
  split; [rewrite Hbeds; reflexivity|].
  unfold active_on. rewrite Hadm. reflexivity.
Defined.

(** X6: Moving an admission to another bed, on a healthy store: the bed it
    lay in is released, the new bed is occupied, the admission row names
    the new bed. *)
Theorem assignBed_moves req w u bid a b rm wd old ob :
  user req = Some u ->
  ab_bedId (body req) = Some bid -> Js.truthy_str bid = true ->
  faults w = [] ->
  admissions (db w) !! param_id req = Some a ->
  tenantAccess u (Some (a_hospitalId a)) = true ->
  beds (db w) !! bid = Some b ->
  rooms (db w) !! b_roomId b = Some rm ->
  wards (db w) !! r_wardId rm = Some wd ->
  w_hospitalId wd = a_hospitalId a ->
  b_status b = AVAILABLE ->
  a_bedId a = Some old -> Js.truthy_str old = true -> old <> bid ->
  beds (db w) !! old = Some ob ->
  let a' := place_admission (r_wardId rm) (b_roomId b) (b_id b) (id u) a in
  exists w',
    assignBed req w = (Ok (mkResponse 200 (PAdmission a')), w')
    /\ admissions (db w') = <[param_id req := a']> (admissions (db w))
    /\ beds (db w') !! old = Some (release_bed ob)
    /\ beds (db w') !! bid = Some (occupy_bed (a_patientId a) (param_id req) b)
    /\ forall other, other <> old -> other <> bid ->
         beds (db w') !! other = beds (db w) !! other.
Proof.
  intros Hu Hbid Hbt Hf Ha Hacc Hb Hr Hw Hh Hst Hold Hot Hne Hob a'.
  apply tenantDenied_access in Hacc.
  destruct w as [d c f i t]. simpl in *. subst f.
  unfold assignBed, admission_findUnique, admission_update, bed_findUnique, bed_update.
  step_monad. rewrite Hu, Hbid. simpl. rewrite Hbt. simpl. rewrite Ha. simpl.
  rewrite Hacc. simpl. rewrite Hb. simpl. rewrite Hr, Hw. simpl.
  rewrite Hh, Hst, !String.eqb_refl, Hold. simpl. rewrite Hot. simpl. rewrite Hob. simpl.
  rewrite Ha. simpl. rewrite (lookup_insert_ne _ old bid) by exact Hne. rewrite Hb. simpl.
  match goal with
  | |- context [createAuditLog ?data ?w0] =>
      destruct (createAuditLog_step data w0) as (w1 & -> & Hrec & _)
  end.
  unfold same_records in Hrec. simpl in Hrec.
  pose proof (f_equal beds Hrec) as Hbeds. simpl in Hbeds.
  exists w1. split; [reflexivity|].
  split; [exact (f_equal admissions Hrec)|]. rewrite Hbeds. split; [|split].
  - rewrite lookup_insert_ne by congruence. apply lookup_insert_eq.
  - apply lookup_insert_eq.
  - intros other Ho Hn. rewrite !lookup_insert_ne by congruence. reflexivity.
Qed.

Lemma assignBed_moves_witness :
  exists w',
    assignBed (assign "A1" "B2") ward_world
    = (Ok (mkResponse 200
             (PAdmission (place_admission "W1" "R1" "B2" "U1" admission1_in_bed1))), w')
    /\ beds (db w') !! "B1" = Some (release_bed bed1_taken)
    /\ beds (db w') !! "B2" = Some (occupy_bed "P1" "A1" (free_bed "2")).
Proof.
  destruct (assignBed_moves (assign "A1" "B2") ward_world nurse "B2" admission1_in_bed1
              (free_bed "2") room1 ward1 "B1" bed1_taken eq_refl eq_refl eq_refl eq_refl
              eq_refl eq_refl eq_refl eq_refl eq_refl eq_refl eq_refl eq_refl eq_refl)
    as (w' & Hrun & _ & Hold & Hnew & _); [discriminate | reflexivity |].
  exists w'. auto.
Defined.

(** X7: A bed of another hospital is refused before any write, whoever asks:
    the comparison is between the bed's ward and the admission. *)
Theorem assignBed_foreign_bed req w u bid a b rm wd :
  user req = Some u ->
  ab_bedId (body req) = Some bid -> Js.truthy_str bid = true ->
  faults w = [] ->
  admissions (db w) !! param_id req = Some a ->
  tenantAccess u (Some (a_hospitalId a)) = true ->
  beds (db w) !! bid = Some b ->
  rooms (db w) !! b_roomId b = Some rm ->
  wards (db w) !! r_wardId rm = Some wd ->
  w_hospitalId wd <> a_hospitalId a ->
  assignBed req w
  = (Ok (mkResponse 400 (PError "Bed does not belong to the same hospital")), w).
Proof.
  intros Hu Hbid Hbt Hf Ha Hacc Hb Hr Hw Hh.
  apply tenantDenied_access in Hacc. apply String.eqb_neq in Hh.
  destruct w as [d c f i t]. simpl in *. subst f.
  unfold assignBed, admission_findUnique, bed_findUnique. step_monad.
  rewrite Hu, Hbid. simpl. rewrite Hbt. simpl. rewrite Ha. simpl. rewrite Hacc. simpl.
  rewrite Hb. simpl. rewrite Hr, Hw. simpl. rewrite Hh. reflexivity.
Qed.

Lemma assignBed_foreign_bed_witness :
  role root = SUPER_ADMIN
  /\ assignBed (mkRequest (Some root) "A1" None None None (mkAssignBedBody (Some "B9")))
               two_hospitals_world
     = (Ok (mkResponse 400 (PError "Bed does not belong to the same hospital")),
        two_hospitals_world).
Proof.
  split; [reflexivity|].
  apply (assignBed_foreign_bed _ two_hospitals_world root "B9" (pending "1") foreign_bed
           room2 ward2); try reflexivity. discriminate.
Defined.

(** ** Inventory *)

(** X9: Reading an item writes nothing, and an answer 200 carries the stored
    row and goes to a principal that passes the tenant check only. *)
Theorem getInventoryItemById_reads req w r w' :
  getInventoryItemById req w = (Ok r, w') ->
  db w' = db w
  /\ (status r = 200%Z ->
      exists u item,
        user req = Some u
        /\ inventoryItems (db w) !! param_id req = Some item
        /\ tenantAccess u (Some (i_hospitalId item)) = true
        /\ payload r = PInventoryItem item).
Proof.
  destruct w as [d c f i t].
  unfold getInventoryItemById, inventoryItem_findUnique, tenantAccess. step_monad. simpl.
  repeat (break_innermost; simpl in *; subst; simpl in * );
    intros [= <- <-]; simpl; (split; [reflexivity|]); try discriminate;
    intros _; eexists _, _; repeat split; eauto;
    match goal with H : tenantDenied _ _ = false |- _ => rewrite H; reflexivity end.
Qed.

Lemma getInventoryItemById_reads_witness :
  (getInventoryItemById (read_request pharmacist "I4") store_room).1
  = Ok (mkResponse 403 (PError "Access denied"))
  /\ db (getInventoryItemById (read_request pharmacist "I4") store_room).2 = db store_room
  /\ (getInventoryItemById (read_request pharmacist "I2") store_room).1
     = Ok (mkResponse 200 (PInventoryItem gauze)).
Proof.
  destruct (getInventoryItemById_reads (read_request pharmacist "I4") store_room
              (mkResponse 403 (PError "Access denied"))
              (getInventoryItemById (read_request pharmacist "I4") store_room).2)
    as [Hdb _]; [vm_compute; reflexivity|].
  split; [reflexivity|]. split; [exact Hdb | reflexivity].
Defined.



(** X11: A [type] other than ADD, SUBTRACT and SET is accepted: the item is
    written back with the stock it had. *)
Theorem updateStock_unknown_type u itemId item w adj ty :
  faults w = [] ->
  inventoryItems (db w) !! itemId = Some item ->
  tenantAccess u (Some (i_hospitalId item)) = true ->
  ty <> "" -> ty <> "ADD" -> ty <> "SUBTRACT" -> ty <> "SET" ->
  exists w',
    updateStock (stock_request u itemId adj ty) w
    = (Ok (mkResponse 200 (PInventoryItem item)), w')
    /\ inventoryItems (db w') = inventoryItems (db w).
Proof.
  intros Hf Hitem Hacc Hne Hadd Hsub Hset.
  assert (Hcalc : calculate_stock (i_stock item) adj ty = (i_stock item, false)).
  { unfold calculate_stock.
    apply String.eqb_neq in Hadd, Hsub, Hset. rewrite Hadd, Hsub, Hset. reflexivity. }
  destruct (updateStock_accepted (stock_request u itemId adj ty) w u adj ty item)
    as (w1 & Hrun & Hitems & _); try reflexivity; try assumption.
  { unfold Js.truthy_str. apply negb_true_iff, String.eqb_neq, Hne. }
  { rewrite Hcalc. reflexivity. }
  rewrite Hcalc in Hrun, Hitems. simpl in Hrun, Hitems.
  assert (Hsame : set_stock (i_stock item) item = item) by (destruct item; reflexivity).
  rewrite Hsame in Hrun, Hitems.
  exists w1. split; [exact Hrun|]. rewrite Hitems. apply insert_id. exact Hitem.
Qed.

Lemma updateStock_unknown_type_witness :
  exists w',
    updateStock (stock_request pharmacist "I1" 7 "REMOVE") pharmacy_world
    = (Ok (mkResponse 200 (PInventoryItem paracetamol)), w')
    /\ inventoryItems (db w') = inventoryItems (db pharmacy_world).
Proof.
  apply (updateStock_unknown_type pharmacist "I1" paracetamol pharmacy_world 7 "REMOVE");
    try reflexivity; discriminate.
Defined.

Lemma insert_by_stock_In x y l : In x (insert_by_stock y l) <-> x = y \/ In x l.
Proof.
  induction l as [|z l IH]; simpl; [intuition|].
  destruct (i_stock y <=? i_stock z)%Z; simpl; [intuition|].
  rewrite IH. intuition.
Qed.

Lemma sort_by_stock_In x l : In x (sort_by_stock l) <-> In x l.
Proof.
  induction l as [|y l IH]; simpl; [reflexivity|].
  rewrite insert_by_stock_In, IH. intuition.
Qed.

Lemma insert_by_stock_length y l : length (insert_by_stock y l) = S (length l).
Proof.
  induction l as [|z l IH]; simpl; [reflexivity|].
  destruct (i_stock y <=? i_stock z)%Z; simpl; [reflexivity|]. rewrite IH. reflexivity.
Qed.

Lemma sort_by_stock_length l : length (sort_by_stock l) = length l.
Proof.
  induction l as [|y l IH]; simpl; [reflexivity|].
  rewrite insert_by_stock_length, IH. reflexivity.
Qed.

Lemma insert_by_stock_sorted y l :
  StronglySorted (fun a b => i_stock a <= i_stock b)%Z l ->
  StronglySorted (fun a b => i_stock a <= i_stock b)%Z (insert_by_stock y l).
Proof.
  induction 1 as [|z l Hs IH Hall]; simpl.
  - repeat constructor.
  - destruct (Z.leb_spec (i_stock y) (i_stock z)) as [Hle|Hgt].
    + constructor; [constructor; assumption|].
      constructor; [exact Hle|].
      eapply Forall_impl; [exact Hall|]. simpl. intros; lia.
    + constructor; [exact IH|].
      apply Forall_forall. intros x Hx.
      apply list_elem_of_In, insert_by_stock_In in Hx as [-> | Hx]; [lia|].
      rewrite Forall_forall in Hall. apply Hall, list_elem_of_In, Hx.
Qed.

Lemma sort_by_stock_sorted l :
  StronglySorted (fun a b => i_stock a <= i_stock b)%Z (sort_by_stock l).
Proof.
  induction l as [|y l IH]; simpl; [constructor|].
  apply insert_by_stock_sorted, IH.
Qed.

Lemma filter_all {A} (f : A -> bool) (l : list A) :
  (forall x, In x l -> f x = true) -> List.filter f l = l.
Proof.
  induction l as [|x l IH]; simpl; intros Hall; [reflexivity|].
  rewrite (Hall x) by auto. f_equal. apply IH. auto.
Qed.

Lemma filter_twice {A} (f g : A -> bool) (l : list A) :
  List.filter f (List.filter g l) = List.filter (fun x => g x && f x) l.
Proof.
  induction l as [|x l IH]; simpl; [reflexivity|].
  destruct (g x); simpl; [destruct (f x); simpl; rewrite IH|]; auto.
Qed.

Lemma stored_items_In (m : gmap string InventoryItem) i :
  In i (map snd (map_to_list m)) <-> exists k, m !! k = Some i.
Proof.
  rewrite in_map_iff. split.
  - intros ([k v] & <- & Hin). exists k.
    apply list_elem_of_In, elem_of_map_to_list in Hin. exact Hin.
  - intros (k & Hk). exists (k, i). split; [reflexivity|].
    apply list_elem_of_In, elem_of_map_to_list. exact Hk.
Qed.

Lemma in_scope_filter u x : hospitalFilter u x = in_scope u x.
Proof.
  unfold hospitalFilter, in_scope.
  destruct (String.eqb (role u) SUPER_ADMIN), (Js.truthy_ostr (hospitalId u)); reflexivity.
Qed.

(** X12: The low stock list, on a healthy store: it holds exactly the stored
    items with [stock <= reorderLevel] that are in the caller's scope, in
    ascending order of stock, and reading it changes nothing.  The scope
    is the caller's hospital when the caller is not a SUPER_ADMIN and has
    one; it is every hospital otherwise. *)
Theorem getLowStock_lists req w u :
  user req = Some u -> faults w = [] ->
  exists items,
    getLowStock req w = (Ok (mkReply 200 (BItems items)), w)
    /\ (forall i, In i items <->
          (exists k, inventoryItems (db w) !! k = Some i)
          /\ in_scope u (i_hospitalId i) = true
          /\ (i_stock i <= i_reorderLevel i)%Z)
    /\ StronglySorted (fun a b => i_stock a <= i_stock b)%Z items
    /\ (forall h, role u <> SUPER_ADMIN -> hospitalId u = Some h -> h <> "" ->
          forall i, In i items -> i_hospitalId i = h)
    /\ ((role u = SUPER_ADMIN \/ hospitalId u = None) ->
          forall i, in_scope u (i_hospitalId i) = true).
Proof.
  intros Hu Hf. destruct w as [d c f ids t]. simpl in *. subst f.
  unfold getLowStock, inventoryItem_findLowStock. step_monad. rewrite Hu. simpl.
  set (selected := List.filter (fun i => in_scope u (i_hospitalId i) && low_stock i)
                               (map snd (map_to_list (inventoryItems d)))).
  assert (Hsel : forall i, In i selected <->
            (exists k, inventoryItems d !! k = Some i)
            /\ in_scope u (i_hospitalId i) = true /\ (i_stock i <= i_reorderLevel i)%Z).
  { intros i. unfold selected. rewrite filter_In, stored_items_In, andb_true_iff.
    unfold low_stock. rewrite Z.leb_le. tauto. }
  assert (Hlow : List.filter low_stock (sort_by_stock selected) = sort_by_stock selected).
  { apply filter_all. intros x Hx. apply sort_by_stock_In, Hsel in Hx as (_ & _ & Hle).
    apply Z.leb_le, Hle. }
  rewrite Hlow. exists (sort_by_stock selected). split; [reflexivity|].
  split; [intros i; rewrite sort_by_stock_In; apply Hsel|].
  split; [apply sort_by_stock_sorted|]. split.
  - intros h Hrole Hh Hne i Hi. apply sort_by_stock_In, Hsel in Hi as (_ & Hscope & _).
    unfold in_scope in Hscope. apply String.eqb_neq in Hrole. rewrite Hrole, Hh in Hscope.
    simpl in Hscope. unfold Js.truthy_str in Hscope.
    apply String.eqb_neq in Hne. rewrite Hne in Hscope. simpl in Hscope.
    apply String.eqb_eq, Hscope.
  - intros [Hrole | Hnone] i; unfold in_scope.
    + rewrite Hrole, String.eqb_refl. reflexivity.
    + rewrite Hnone. simpl. rewrite andb_false_r. reflexivity.
Qed.

Lemma getLowStock_lists_witness :
  getLowStock (read_request pharmacist "") store_room
  = (Ok (mkReply 200 (BItems [insulin; gauze])), store_room)
  /\ (getLowStock (read_request root "") store_room).1
     = Ok (mkReply 200 (BItems [insulin; saline; gauze])).
Proof.
  destruct (getLowStock_lists (read_request pharmacist "") store_room pharmacist
              eq_refl eq_refl) as (items & Hrun & _).
  split; [|vm_compute; reflexivity].
  rewrite Hrun. f_equal. f_equal. f_equal.
  assert (Heq : (getLowStock (read_request pharmacist "") store_room).1
                = Ok (mkReply 200 (BItems [insulin; gauze]))) by (vm_compute; reflexivity).
  rewrite Hrun in Heq. simpl in Heq. congruence.
Defined.

(** X13: The dashboard counts what the low stock list shows: for the same
    principal and store, [lowStockCount] is the length of the list that
    [getLowStock] returns. *)
Theorem lowStockCount_agrees req w u :
  user req = Some u -> faults w = [] ->
  exists items,
    getLowStock req w = (Ok (mkReply 200 (BItems items)), w)
    /\ lowStockCount u w = (Ok (Z.of_nat (length items)), w).
Proof.
  intros Hu Hf. destruct w as [d c f ids t]. simpl in *. subst f.
  unfold getLowStock, lowStockCount, inventoryItem_findLowStock. step_monad.
  rewrite Hu. simpl. eexists. split; [reflexivity|].
  do 3 f_equal.
  rewrite (filter_all low_stock (sort_by_stock _)).
  - rewrite sort_by_stock_length, filter_twice. f_equal.
    apply List.filter_ext. intros x. rewrite in_scope_filter. reflexivity.
  - intros x Hx. apply sort_by_stock_In, filter_In in Hx as [_ Hx].
    apply andb_true_iff in Hx as [_ Hx]. exact Hx.
Qed.

Lemma lowStockCount_agrees_witness :
  lowStockCount pharmacist store_room = (Ok 2%Z, store_room)
  /\ exists items,
       getLowStock (read_request pharmacist "") store_room
       = (Ok (mkReply 200 (BItems items)), store_room)
       /\ length items = 2.
Proof.
  destruct (lowStockCount_agrees (read_request pharmacist "") store_room pharmacist
              eq_refl eq_refl) as (items & Hrun & Hcount).
  assert (Hlen : lowStockCount pharmacist store_room = (Ok 2%Z, store_room))
    by (vm_compute; reflexivity).
  split; [exact Hlen|]. exists items. split; [exact Hrun|].
  rewrite Hcount in Hlen. injection Hlen as Hlen. lia.
Defined.

(** ** The audit trail *)

Lemma createAuditLog_healthy data w i rest details :
  faults w = [] ->
  uuids w = i :: rest ->
  existsb (fun r => String.eqb (al_id r) i) (auditLogs (db w)) = false ->
  details_copy (ad_details data) = Ok details ->
  createAuditLog data w
  = (Ok tt,
     set_db (set_auditLogs
               (auditLogs (db w)
                ++ [mkAuditLog i (ad_userId data) (ad_hospitalId data) (ad_action data)
                               (ad_entity data) (ad_entityId data) details
                               (ad_ipAddress data) (ad_userAgent data)])
               (db w))
            (set_uuids rest w)).
Proof.
  intros Hf Hids Hfresh Hcopy. destruct w as [d c f ids t]. simpl in *. subst f ids.
  unfold createAuditLog, auditLog_create. step_monad. rewrite Hcopy. simpl.
  rewrite Hfresh. reflexivity.
Qed.



Lemma existsb_eqb_In s l : existsb (String.eqb s) l = true <-> In s l.
Proof.
  rewrite existsb_exists. split.
  - intros (x & Hin & Heq). apply String.eqb_eq in Heq. subst. exact Hin.
  - intros Hin. exists s. split; [exact Hin | apply String.eqb_refl].
Qed.

(** X15: The coarse audit hook always hands the request on, whatever the store
    does; it records nothing for a method other than POST, PUT, PATCH and
    DELETE, for a path that contains /auth/login or /auth/register, and
    for a request without a principal; otherwise, on a healthy store, it
    appends one API_REQUEST row whose action is the method and the path. *)
Theorem auditMiddleware_scope (req : HttpRequest) (w : World) :
  (exists w', auditMiddleware req w = (Ok tt, w') /\ same_records (db w) (db w'))
  /\ (~ In (h_method req) methodsToLog
      \/ includes "/auth/login" (h_path req) = true
      \/ includes "/auth/register" (h_path req) = true
      \/ h_user req = None ->
      auditMiddleware req w = (Ok tt, w))
  /\ (forall u i rest query,
        In (h_method req) methodsToLog ->
        includes "/auth/login" (h_path req) = false ->
        includes "/auth/register" (h_path req) = false ->
        h_user req = Some u ->
        Js.jsonify (h_query req) = Ok query ->
        faults w = [] -> uuids w = i :: rest ->
        existsb (fun r => String.eqb (al_id r) i) (auditLogs (db w)) = false ->
        exists w' row,
          auditMiddleware req w = (Ok tt, w')
          /\ auditLogs (db w') = auditLogs (db w) ++ [row]
          /\ al_action row = h_method req +:+ " " +:+ h_path req
          /\ al_entity row = "API_REQUEST"
          /\ al_userId row = Some (id u)).
Proof.
  split; [|split].
  - unfold auditMiddleware.
    destruct (negb (existsb _ methodsToLog)); [exists w; split; reflexivity|].
    destruct (includes "/auth/login" _ || includes "/auth/register" _);
      [exists w; split; reflexivity|].
    destruct (h_user req) as [u|]; [|exists w; split; reflexivity].
    match goal with
    | |- context [createAuditLog ?data ?w0] =>
        destruct (createAuditLog_step data w0) as (w1 & Hrun & Hrec & _)
    end.
    exists w1. auto.
  - intros Hskip. unfold auditMiddleware.
    destruct (existsb (String.eqb (h_method req)) methodsToLog) eqn:Hm; simpl;
      [|reflexivity].
    apply existsb_eqb_In in Hm.
    destruct Hskip as [Hnot | [Hlogin | [Hreg | Hnone]]].
    + contradiction.
    + rewrite Hlogin. reflexivity.
    + rewrite Hreg, orb_true_r. reflexivity.
    + destruct (_ || _); [reflexivity|]. rewrite Hnone. reflexivity.
  - intros u i rest query Hm Hlogin Hreg Hu Hq Hf Hids Hfresh.
    unfold auditMiddleware.
    apply existsb_eqb_In in Hm. rewrite Hm, Hlogin, Hreg, Hu. simpl.
    match goal with
    | |- context [createAuditLog ?data w] =>
        assert (Hcopy : exists details, details_copy (ad_details data) = Ok details)
          by (simpl; rewrite Hq; destruct query; eexists; reflexivity);
        destruct Hcopy as [details Hcopy];
        rewrite (createAuditLog_healthy data w i rest details Hf Hids Hfresh Hcopy)
    end.
    eexists _, _. split; [reflexivity|]. simpl. repeat split.
Qed.

Lemma auditMiddleware_scope_witness :
  auditMiddleware (http "POST" "/api/auth/login" (Some nurse)) ward_world = (Ok tt, ward_world)
  /\ auditMiddleware (http "GET" "/api/patients" (Some nurse)) ward_world = (Ok tt, ward_world)
  /\ exists w' row,
       auditMiddleware (http "DELETE" "/api/inventory/I1" (Some nurse)) ward_world
       = (Ok tt, w')
       /\ auditLogs (db w') = [row]
       /\ al_action row = "DELETE /api/inventory/I1".
Proof.
  destruct (auditMiddleware_scope (http "POST" "/api/auth/login" (Some nurse)) ward_world)
    as (_ & Hlogin & _).
  destruct (auditMiddleware_scope (http "GET" "/api/patients" (Some nurse)) ward_world)
    as (_ & Hget & _).
  destruct (auditMiddleware_scope (http "DELETE" "/api/inventory/I1" (Some nurse)) ward_world)
    as (_ & _ & Hdelete).
  split; [apply Hlogin; right; left; reflexivity|].
  split.
  - apply Hget. left. simpl. intros [H|[H|[H|[H|[]]]]]; discriminate.
  - destruct (Hdelete nurse "L1" ["L2"; "L3"] (Js.Obj []))
      as (w' & row & Hrun & Hlogs & Hact & _); try reflexivity.
    { simpl. auto. }
    exists w', row. auto.
Defined.

(** ** Authentication and role gates *)

Lemma substring_whole s : String.substring 0 (String.length s) s = s.
Proof. induction s as [|c s IH]; simpl; [reflexivity|]. rewrite IH. reflexivity. Qed.

Lemma after_bearer_token t : after_bearer ("Bearer " +:+ t) = t.
Proof.
  unfold after_bearer. simpl. rewrite Nat.sub_0_r. apply substring_whole.
Qed.

Lemma prefix_split p : forall h,
  String.prefix p h = true ->
  h = p +:+ String.substring (String.length p) (String.length h - String.length p) h.
Proof.
  induction p as [|a p IH]; intros h Hp.
  - simpl. rewrite Nat.sub_0_r, substring_whole. reflexivity.
  - destruct h as [|b h]; [discriminate|].
    change (String.prefix (String a p) (String b h))
      with (if Ascii.ascii_dec a b then String.prefix p h else false) in Hp.
    destruct (Ascii.ascii_dec a b) as [<-|]; [|discriminate].
    rewrite (IH h Hp) at 1. reflexivity.
Qed.

Lemma bearer_prefix h :
  String.prefix "Bearer " h = true -> h = "Bearer " +:+ after_bearer h.
Proof. apply prefix_split. Qed.

Lemma authorize_next (allowedRoles : list string) (user x : option Principal) :
  authorize allowedRoles user = Next x
  <-> x = user /\ exists u, user = Some u /\ In (role u) allowedRoles.
Proof.
  unfold authorize. destruct user as [u|].
  - destruct (existsb (String.eqb (role u)) allowedRoles) eqn:He; simpl.
    + apply existsb_eqb_In in He. split.
      * intros [= <-]. eauto.
      * intros [-> _]. reflexivity.
    + split; [discriminate|]. intros (_ & u' & [= <-] & Hin).
      apply existsb_eqb_In in Hin. congruence.
  - split; [discriminate|]. intros (_ & u & Hu & _). discriminate.
Qed.

(** X16: The role gate hands on exactly the requests whose principal has one
    of the allowed roles, and hands them on unchanged; a request without
    a principal is answered 401, any other 403 with the allowed roles and
    the caller's role. *)
Theorem authorize_passes (allowedRoles : list string) (user : option Principal) :
  (forall x, authorize allowedRoles user = Next x <->
             x = user /\ exists u, user = Some u /\ In (role u) allowedRoles)
  /\ (user = None ->
      authorize allowedRoles user = Halt 401 "Authentication required" [] None)
  /\ (forall u, user = Some u -> ~ In (role u) allowedRoles ->
      authorize allowedRoles user
      = Halt 403 "Access denied. Insufficient permissions." allowedRoles (Some (role u))).
Proof.
  split; [|split].
  - intros x. apply authorize_next.
  - intros ->. reflexivity.
  - intros u -> Hnot. unfold authorize.
    destruct (existsb (String.eqb (role u)) allowedRoles) eqn:He; simpl; [|reflexivity].
    apply existsb_eqb_In in He. contradiction.
Qed.

Section AuthMiddlewareProperties.

Variable jwt_verify : string -> string -> option Principal.
Variable env_JWT_SECRET : option string.

(** X17: A route behind [authenticate] and [authorize] is reached exactly by
    the requests whose Authorization header is "Bearer " followed by a
    token that verifies under the access secret to a principal with an
    allowed role; that principal becomes [req.user]. *)
Theorem guarded_passes (allowedRoles : list string) (authorization : option string)
    (x : option Principal) :
  guarded jwt_verify env_JWT_SECRET allowedRoles authorization = Next x
  <-> exists token p,
        authorization = Some ("Bearer " +:+ token)
        /\ jwt_verify token (JWT_SECRET env_JWT_SECRET) = Some p
        /\ In (role p) allowedRoles
        /\ x = Some p.
Proof.
  unfold guarded, authenticate, verifyAccessToken. split.
  - destruct authorization as [h|]; [|discriminate].
    destruct (Js.truthy_str h); simpl; [|discriminate].
    destruct (String.prefix "Bearer " h) eqn:Hp; simpl; [|discriminate].
    destruct (jwt_verify (after_bearer h) _) as [p|] eqn:Hv; [|discriminate].
    intros Hauth. apply authorize_next in Hauth as (-> & u & [= <-] & Hin).
    exists (after_bearer h), p. repeat split; auto.
    f_equal. apply bearer_prefix, Hp.
  - intros (token & p & -> & Hv & Hin & ->).
    change (Js.truthy_str ("Bearer " +:+ token)) with true.
    change (String.prefix "Bearer " ("Bearer " +:+ token))
      with (String.prefix "" token).
    assert (Hempty : String.prefix "" token = true) by (destruct token; reflexivity).
    rewrite Hempty. simpl negb. simpl orb. cbv iota.
    rewrite after_bearer_token, Hv.
    apply authorize_next. eauto.
Qed.

End AuthMiddlewareProperties.

(** ** Sessions *)


Lemma find_token_removed token l :
  List.find (fun r => String.eqb (rt_token r) token) (without_token token l) = None.
Proof.
  unfold without_token. induction l as [|r l IH]; simpl; [reflexivity|].
  destruct (String.eqb (rt_token r) token) eqn:Heq; simpl; [exact IH|].
  rewrite Heq. exact IH.
Qed.


Section SessionsProperties.

Variable jwt_sign : Principal -> string -> string -> string.
Variable jwt_verify : string -> string -> option Principal.
Variable hashPassword : string -> string.
Variable comparePassword : string -> string -> bool.
Variables env_JWT_SECRET env_JWT_REFRESH_SECRET : option string.
Variables env_JWT_EXPIRES_IN env_JWT_REFRESH_EXPIRES_IN : option string.

Local Abbreviation refresh :=
  (refreshTokenHandler jwt_sign jwt_verify env_JWT_SECRET env_JWT_REFRESH_SECRET
                       env_JWT_EXPIRES_IN env_JWT_REFRESH_EXPIRES_IN).
Local Abbreviation refresh_secret := (JWT_REFRESH_SECRET env_JWT_REFRESH_SECRET).
Local Abbreviation new_refresh_token :=
  (generateRefreshToken jwt_sign env_JWT_REFRESH_SECRET env_JWT_REFRESH_EXPIRES_IN).
Local Abbreviation new_access_token :=
  (generateAccessToken jwt_sign env_JWT_SECRET env_JWT_EXPIRES_IN).


(** X19: Whatever the store does, a refresh is answered 200, 400 or 401 (a
    storage failure is answered 401 as well) and never writes to a table
    other than the refresh tokens. *)
Theorem refresh_answers req w :
  exists r w',
    refresh req w = (Ok r, w')
    /\ (r_status r = 200 \/ r_status r = 400 \/ r_status r = 401)%Z
    /\ set_refreshTokens [] (db w') = set_refreshTokens [] (db w).
Proof.
  destruct w as [d c f i t].
  unfold refreshTokenHandler, verifyRefreshToken, refreshToken_findUnique, user_findUnique,
    refreshToken_delete, refreshToken_create.
  step_monad. simpl.
  repeat (break_innermost; simpl in *; subst; simpl in * );
    eexists _, _; (split; [reflexivity|]); simpl; auto.
Qed.

#[local] Arguments Nat.ltb : simpl never.

Lemma refresh_unknown_token req w token :
  rb_refreshToken (body req) = Some token -> Js.truthy_str token = true ->
  faults w = [] ->
  List.find (fun r => String.eqb (rt_token r) token) (refreshTokens (db w)) = None ->
  exists msg w',
    refresh req w = (Ok (mkReply 401 (BError msg)), w') /\ db w' = db w /\ faults w' = [].
Proof.
  intros Hb Ht Hf Hfind.
  destruct w as [d c f ids t]. simpl in *. subst f.
  unfold refreshTokenHandler, verifyRefreshToken, refreshToken_findUnique.
  step_monad. rewrite Hb. simpl. rewrite Ht. simpl.
  destruct (jwt_verify token refresh_secret) as [p|]; simpl.
  - rewrite Hfind. eexists _, _. split; [reflexivity|]. split; reflexivity.
  - eexists _, _. split; [reflexivity|]. split; reflexivity.
Qed.


Lemma logout_step req w token :
  rb_refreshToken (body req) = Some token -> Js.truthy_str token = true ->
  faults w = [] ->
  exists w1,
    logout req w = (Ok (mkResponse 200 (PMessage "Logout successful")), w1)
    /\ refreshTokens (db w1) = without_token token (refreshTokens (db w))
    /\ users (db w1) = users (db w)
    /\ faults w1 = [].
Proof.
  intros Hb Ht Hf.
  destruct w as [d c f ids t]. simpl in *. subst f.
  unfold logout, refreshToken_deleteMany.
  step_monad. rewrite Hb. simpl. rewrite Ht. simpl.
  destruct (user req) as [p|]; simpl.
  - match goal with
    | |- context [createAuditLog ?data ?w0] =>
        destruct (createAuditLog_step data w0) as (w1 & -> & Hrec & _ & Hfaults & _)
    end.
    eexists. split; [reflexivity|]. simpl in *.
    unfold same_records in Hrec.
    split; [exact (f_equal refreshTokens Hrec)|].
    split; [exact (f_equal users Hrec)|]. auto.
  - eexists. split; [reflexivity|]. auto.
Qed.

(** X20: logout revokes the token.  With a healthy store a logout that
    carries a refresh token is answered 200 and removes every stored row
    with that token, whether or not the caller is authenticated; a later
    refresh with the token is answered 401 and writes nothing. *)
Theorem logout_revokes req req' w token :
  rb_refreshToken (body req) = Some token -> Js.truthy_str token = true ->
  rb_refreshToken (body req') = Some token ->
  faults w = [] ->
  exists w1 msg w2,
    logout req w = (Ok (mkResponse 200 (PMessage "Logout successful")), w1)
    /\ refreshTokens (db w1) = without_token token (refreshTokens (db w))
    /\ refresh req' w1 = (Ok (mkReply 401 (BError msg)), w2)
    /\ db w2 = db w1.
Proof.
  intros Hb Ht Hb' Hf.
  destruct (logout_step req w token Hb Ht Hf) as (w1 & Hrun & Htokens & _ & Hf1).
  destruct (refresh_unknown_token req' w1 token Hb' Ht Hf1) as (msg & w2 & Hrun2 & Hdb & _).
  { rewrite Htokens. apply find_token_removed. }
  exists w1, msg, w2. auto.
Qed.

Lemma changePassword_accepted req w p o n u :
  user req = Some p ->
  oldPassword (body req) = Some o -> Js.truthy_str o = true ->
  newPassword (body req) = Some n -> (8 <= String.length n)%nat ->
  faults w = [] ->
  users (db w) !! id p = Some u -> u_id u = id p ->
  comparePassword o (u_password u) = true ->
  exists w',
    changePassword hashPassword comparePassword req w
    = (Ok (mkResponse 200 (PMessage "Password changed successfully")), w')
    /\ users (db w') = <[id p := set_password (hashPassword n) u]> (users (db w))
    /\ refreshTokens (db w') = refreshTokens (db w)
    /\ faults w' = [].
Proof.
  intros Hu Ho Hto Hn Hlen Hf Hrow Hid Hcmp.
  assert (Htn : Js.truthy_str n = true).
  { destruct n; [simpl in Hlen; lia | reflexivity]. }
  assert (Hlt : (String.length n <? 8)%nat = false) by (apply Nat.ltb_ge; exact Hlen).
  destruct w as [d c f ids t]. simpl in *. subst f.
  unfold changePassword, user_findUnique, user_update.
  step_monad. rewrite Hu, Ho, Hn. simpl. rewrite Hto, Htn. simpl. rewrite Hlt. simpl.
  rewrite Hrow. simpl. rewrite Hcmp. simpl. rewrite Hid, Hrow. simpl.
  match goal with
  | |- context [createAuditLog ?data ?w0] =>
      destruct (createAuditLog_step data w0) as (w1 & -> & Hrec & _ & Hfaults & _)
  end.
  eexists. split; [reflexivity|]. simpl in *. unfold same_records in Hrec.
  split; [exact (f_equal users Hrec)|].
  split; [exact (f_equal refreshTokens Hrec)|]. auto.
Qed.

(** X21: the old password gates a password change.  For a well-formed
    request of a stored user on a healthy store: when the old password does
    not match, the answer is 401 and nothing is written; when it matches,
    the answer is 200, the stored hash becomes the hash of the new password
    and the user's refresh tokens stay as they were. *)
Theorem changePassword_checks_old req w p o n u :
  user req = Some p ->
  oldPassword (body req) = Some o -> Js.truthy_str o = true ->
  newPassword (body req) = Some n -> (8 <= String.length n)%nat ->
  faults w = [] ->
  users (db w) !! id p = Some u -> u_id u = id p ->
  (comparePassword o (u_password u) = false /\
   changePassword hashPassword comparePassword req w
   = (Ok (mkResponse 401 (PError "Incorrect old password")), w))
  \/ (comparePassword o (u_password u) = true /\
      exists w',
        changePassword hashPassword comparePassword req w
        = (Ok (mkResponse 200 (PMessage "Password changed successfully")), w')
        /\ users (db w') = <[id p := set_password (hashPassword n) u]> (users (db w))
        /\ refreshTokens (db w') = refreshTokens (db w)).
Proof.
  intros Hu Ho Hto Hn Hlen Hf Hrow Hid.
  destruct (comparePassword o (u_password u)) eqn:Hcmp.
  - right. split; [reflexivity|].
    destruct (changePassword_accepted req w p o n u Hu Ho Hto Hn Hlen Hf Hrow Hid Hcmp)
      as (w' & Hrun & Husers & Htokens & _).
    exists w'. auto.
  - left. split; [reflexivity|].
    assert (Htn : Js.truthy_str n = true).
    { destruct n; [simpl in Hlen; lia | reflexivity]. }
    assert (Hlt : (String.length n <? 8)%nat = false) by (apply Nat.ltb_ge; exact Hlen).
    destruct w as [d c f ids t]. simpl in *. subst f.
    unfold changePassword, user_findUnique.
    step_monad. rewrite Hu, Ho, Hn. simpl. rewrite Hto, Htn. simpl. rewrite Hlt. simpl.
    rewrite Hrow. simpl. rewrite Hcmp. reflexivity.
Qed.

(** X22: a reset password opens the account.  After an administrator who
    passes the tenant check resets a user's password to [n], the user can
    change the password by giving [n] as the old one, provided the
    comparison accepts [n] against its own hash. *)
Theorem resetUserPassword_then_change reset change w admin p n m u :
  user reset = Some admin -> rp_newPassword (body reset) = Some n ->
  (8 <= String.length n)%nat ->
  users (db w) !! param_id reset = Some u ->
  tenantDenied admin (u_hospitalId u) = false ->
  faults w = [] ->
  comparePassword n (hashPassword n) = true ->
  user change = Some p -> id p = param_id reset -> u_id u = param_id reset ->
  oldPassword (body change) = Some n ->
  newPassword (body change) = Some m -> (8 <= String.length m)%nat ->
  exists w1 w2,
    resetUserPassword hashPassword reset w
    = (Ok (mkResponse 200 (PMessage "Password reset successfully")), w1)
    /\ users (db w1) = <[param_id reset := set_password (hashPassword n) u]> (users (db w))
    /\ changePassword hashPassword comparePassword change w1
       = (Ok (mkResponse 200 (PMessage "Password changed successfully")), w2)
    /\ users (db w2) !! param_id reset = Some (set_password (hashPassword m) u).
Proof.
  intros Hadmin Hn Hlen Hrow Hten Hf Hcmp Hp Hidp Hidu Hold Hnew Hlenm.
  assert (Htn : Js.truthy_str n = true).
  { destruct n; [simpl in Hlen; lia | reflexivity]. }
  assert (Hlt : (String.length n <? 8)%nat = false) by (apply Nat.ltb_ge; exact Hlen).
  assert (Hreset : exists w1,
    resetUserPassword hashPassword reset w
    = (Ok (mkResponse 200 (PMessage "Password reset successfully")), w1)
    /\ users (db w1) = <[param_id reset := set_password (hashPassword n) u]> (users (db w))
    /\ faults w1 = []).
  { destruct w as [d c f ids t]. simpl in *. subst f.
    unfold resetUserPassword, user_findUnique, user_update.
    step_monad. rewrite Hadmin, Hn. simpl. rewrite Htn. simpl. rewrite Hlt. simpl.
    rewrite Hrow. simpl. rewrite Hten. simpl. rewrite Hrow. simpl.
    match goal with
    | |- context [createAuditLog ?data ?w0] =>
        destruct (createAuditLog_step data w0) as (w1 & -> & Hrec & _ & Hfaults & _)
    end.
    eexists. split; [reflexivity|]. simpl in *. unfold same_records in Hrec.
    split; [exact (f_equal users Hrec)|]. auto. }
  destruct Hreset as (w1 & Hrun1 & Husers1 & Hf1).
  assert (Hrow1 : users (db w1) !! id p = Some (set_password (hashPassword n) u)).
  { rewrite Husers1, Hidp. apply lookup_insert_eq. }
  assert (Hid1 : u_id (set_password (hashPassword n) u) = id p) by (simpl; congruence).
  destruct (changePassword_accepted change w1 p n m (set_password (hashPassword n) u)
              Hp Hold Htn Hnew Hlenm Hf1 Hrow1 Hid1 Hcmp) as (w2 & Hrun2 & Husers2 & _).
  exists w1, w2. split; [exact Hrun1|]. split; [exact Husers1|]. split; [exact Hrun2|].
  rewrite Husers2, Hidp. rewrite lookup_insert_eq. reflexivity.
Qed.

Lemma refresh_inactive_user req w token q u :
  rb_refreshToken (body req) = Some token -> Js.truthy_str token = true ->
  jwt_verify token refresh_secret = Some q ->
  faults w = [] ->
  users (db w) !! id q = Some u -> u_active u = false ->
  exists msg w',
    refresh req w = (Ok (mkReply 401 (BError msg)), w') /\ db w' = db w.
Proof.
  intros Hb Ht Hv Hf Hu Hact.
  destruct w as [d c f ids t]. simpl in *. subst f.
  unfold refreshTokenHandler, verifyRefreshToken, refreshToken_findUnique, user_findUnique.
  step_monad. rewrite Hb. simpl. rewrite Ht. simpl. rewrite Hv. simpl.
  destruct (List.find _ (refreshTokens d)) as [stored|]; simpl.
  - destruct (rt_expiresAt stored <? t)%Z; simpl.
    + eexists _, _. split; reflexivity.
    + rewrite Hu, Hact. simpl. eexists _, _. split; reflexivity.
  - eexists _, _. split; reflexivity.
Qed.

(** X23: deactivation locks the account out of token refresh.  When a
    caller who passes the tenant check deactivates another user on a healthy
    store, the answer is 200, the row is stored with [active = false] and
    the stored refresh tokens are left in place; every later refresh with a
    token of that user is answered 401 and writes nothing. *)
Theorem deactivateUser_locks_out req req' w p u token q :
  user req = Some p ->
  faults w = [] ->
  users (db w) !! param_id req = Some u ->
  tenantDenied p (u_hospitalId u) = false ->
  param_id req <> id p ->
  rb_refreshToken (body req') = Some token -> Js.truthy_str token = true ->
  jwt_verify token refresh_secret = Some q -> id q = param_id req ->
  exists w1 msg w2,
    deactivateUser req w
    = (Ok (mkReply 200 (BUserMessage "User deactivated successfully" (deactivate u))), w1)
    /\ users (db w1) = <[param_id req := deactivate u]> (users (db w))
    /\ refreshTokens (db w1) = refreshTokens (db w)
    /\ refresh req' w1 = (Ok (mkReply 401 (BError msg)), w2)
    /\ db w2 = db w1.
Proof.
  intros Hp Hf Hrow Hten Hself Hb Ht Hv Hq.
  assert (Hrun : exists w1,
    deactivateUser req w
    = (Ok (mkReply 200 (BUserMessage "User deactivated successfully" (deactivate u))), w1)
    /\ users (db w1) = <[param_id req := deactivate u]> (users (db w))
    /\ refreshTokens (db w1) = refreshTokens (db w)
    /\ faults w1 = []).
  { apply String.eqb_neq in Hself.
    destruct w as [d c f ids t]. simpl in *. subst f.
    unfold deactivateUser, user_findUnique, user_update.
    step_monad. rewrite Hp. simpl. rewrite Hrow. simpl. rewrite Hten, Hself. simpl.
    rewrite Hrow. simpl.
    match goal with
    | |- context [createAuditLog ?data ?w0] =>
        destruct (createAuditLog_step data w0) as (w1 & -> & Hrec & _ & Hfaults & _)
    end.
    eexists. split; [reflexivity|]. simpl in *. unfold same_records in Hrec.
    split; [exact (f_equal users Hrec)|].
    split; [exact (f_equal refreshTokens Hrec)|]. auto. }
  destruct Hrun as (w1 & Hrun & Husers & Htokens & Hf1).
  destruct (refresh_inactive_user req' w1 token q (deactivate u) Hb Ht Hv Hf1)
    as (msg & w2 & Hrun2 & Hdb).
  { rewrite Husers, Hq. apply lookup_insert_eq. }
  { reflexivity. }
  exists w1, msg, w2. auto.
Qed.

(** X24: nobody deactivates their own account.  Whatever the store holds
    or does, a request whose target is the caller's own id is answered
    400, 403, 404 or 500 and leaves every table as it was. *)
Theorem deactivateUser_not_self req w p :
  user req = Some p -> param_id req = id p ->
  exists r w',
    deactivateUser req w = (Ok r, w')
    /\ (r_status r = 400 \/ r_status r = 403 \/ r_status r = 404 \/ r_status r = 500)%Z
    /\ db w' = db w.
Proof.
  intros Hp Hself.
  destruct w as [d c f ids t].
  unfold deactivateUser, user_findUnique.
  step_monad. rewrite Hp, Hself, String.eqb_refl. simpl.
  destruct f as [|[] fs]; simpl.
  - destruct (users d !! id p) as [u|]; simpl;
      [destruct (tenantDenied p (u_hospitalId u)); simpl|];
      eexists _, _; (split; [reflexivity|]); simpl; auto 6.
  - eexists _, _; (split; [reflexivity|]); simpl; auto 6.
  - destruct (users d !! id p) as [u|]; simpl;
      [destruct (tenantDenied p (u_hospitalId u)); simpl|];
      eexists _, _; (split; [reflexivity|]); simpl; auto 6.
Qed.

(** X25: the hospital gate of user creation.  A caller who is not
    SUPER_ADMIN and names no hospital, or a hospital other than their own,
    is answered 403 (400 when a required field is missing) before any
    storage call: the world is unchanged, whatever its state. *)
Theorem createUser_hospital_gate req w p :
  user req = Some p ->
  role p <> SUPER_ADMIN ->
  Js.truthy_ostr (cu_hospitalId (body req)) = false
  \/ cu_hospitalId (body req) <> hospitalId p ->
  exists r,
    createUser hashPassword req w = (Ok r, w)
    /\ (r = mkResponse 403 (PError "You can only create users for your hospital")
        \/ r = mkResponse 400 (PError "Missing required fields")).
Proof.
  intros Hp Hrole Hgate.
  apply String.eqb_neq in Hrole.
  assert (Hcheck : negb (Js.truthy_ostr (cu_hospitalId (body req)))
                   || negb (same_tenant (cu_hospitalId (body req)) (hospitalId p)) = true).
  { destruct Hgate as [-> | Hne]; [reflexivity|].
    apply orb_true_iff. right. apply negb_true_iff.
    destruct (same_tenant _ _) eqn:Hsame; [|reflexivity].
    apply same_tenant_true in Hsame. contradiction. }
  unfold createUser. step_monad. rewrite Hp. simpl. rewrite Hrole, Hcheck. simpl.
  destruct (negb (Js.truthy_ostr (cu_email (body req))) || _ || _ || _ || _);
    eexists; (split; [reflexivity|]); auto.
Qed.

End SessionsProperties.


Lemma logout_revokes_witness :
  exists w1 msg w2,
    logout (with_token (Some nurse) "refresh-ngozi-1") accounts_world
    = (Ok (mkResponse 200 (PMessage "Logout successful")), w1)
    /\ refreshTokens (db w1) = without_token "refresh-ngozi-1" [nurse_token]
    /\ refreshTokenHandler sign_plain verify_plain (Some "access-secret")
                           (Some "refresh-secret") None None
                           (with_token None "refresh-ngozi-1") w1
       = (Ok (mkReply 401 (BError msg)), w2)
    /\ db w2 = db w1.
Proof.
  exact (logout_revokes sign_plain verify_plain (Some "access-secret")
           (Some "refresh-secret") None None
           (with_token (Some nurse) "refresh-ngozi-1") (with_token None "refresh-ngozi-1")
           accounts_world "refresh-ngozi-1" eq_refl eq_refl eq_refl eq_refl).
Defined.

Lemma changePassword_checks_old_witness :
  (compare_plain "a guess" (u_password nurse_user) = false /\
   changePassword hash_plain compare_plain
                  (change_request nurse "a guess" "ngozi's new secret") accounts_world
   = (Ok (mkResponse 401 (PError "Incorrect old password")), accounts_world))
  \/ (compare_plain "a guess" (u_password nurse_user) = true /\
      exists w',
        changePassword hash_plain compare_plain
                       (change_request nurse "a guess" "ngozi's new secret") accounts_world
        = (Ok (mkResponse 200 (PMessage "Password changed successfully")), w')
        /\ users (db w')
           = <[id nurse := set_password (hash_plain "ngozi's new secret") nurse_user]>
               (users (db accounts_world))
        /\ refreshTokens (db w') = refreshTokens (db accounts_world)).
Proof.
  exact (changePassword_checks_old hash_plain compare_plain
           (change_request nurse "a guess" "ngozi's new secret") accounts_world nurse
           "a guess" "ngozi's new secret" nurse_user
           eq_refl eq_refl eq_refl eq_refl ltac:(vm_compute; lia) eq_refl eq_refl eq_refl).
Defined.

Lemma resetUserPassword_then_change_witness :
  exists w1 w2,
    resetUserPassword hash_plain (reset_request admin1 "U1" "temporary 1") accounts_world
    = (Ok (mkResponse 200 (PMessage "Password reset successfully")), w1)
    /\ users (db w1)
       = <["U1" := set_password (hash_plain "temporary 1") nurse_user]>
           (users (db accounts_world))
    /\ changePassword hash_plain compare_plain
                      (change_request nurse "temporary 1" "ngozi's new secret") w1
       = (Ok (mkResponse 200 (PMessage "Password changed successfully")), w2)
    /\ users (db w2) !! "U1"
       = Some (set_password (hash_plain "ngozi's new secret") nurse_user).
Proof.
  exact (resetUserPassword_then_change hash_plain compare_plain
           (reset_request admin1 "U1" "temporary 1")
           (change_request nurse "temporary 1" "ngozi's new secret")
           accounts_world admin1 nurse "temporary 1" "ngozi's new secret" nurse_user
           eq_refl eq_refl ltac:(vm_compute; lia) eq_refl eq_refl eq_refl eq_refl
           eq_refl eq_refl eq_refl eq_refl eq_refl ltac:(vm_compute; lia)).
Defined.

Lemma deactivateUser_locks_out_witness :
  exists w1 msg w2,
    deactivateUser (read_request admin1 "U1") accounts_world
    = (Ok (mkReply 200 (BUserMessage "User deactivated successfully"
                                     (deactivate nurse_user))), w1)
    /\ users (db w1) = <["U1" := deactivate nurse_user]> (users (db accounts_world))
    /\ refreshTokens (db w1) = [nurse_token]
    /\ refreshTokenHandler sign_plain verify_plain (Some "access-secret")
                           (Some "refresh-secret") None None
                           (with_token None "refresh-ngozi-1") w1
       = (Ok (mkReply 401 (BError msg)), w2)
    /\ db w2 = db w1.
Proof.
  exact (deactivateUser_locks_out sign_plain verify_plain (Some "access-secret")
           (Some "refresh-secret") None None
           (read_request admin1 "U1") (with_token None "refresh-ngozi-1")
           accounts_world admin1 nurse_user "refresh-ngozi-1" nurse
           eq_refl eq_refl eq_refl eq_refl ltac:(discriminate) eq_refl eq_refl eq_refl
           eq_refl).
Defined.

Lemma deactivateUser_not_self_witness :
  exists r w',
    deactivateUser (read_request admin1 "U4") accounts_world = (Ok r, w')
    /\ (r_status r = 400 \/ r_status r = 403 \/ r_status r = 404 \/ r_status r = 500)%Z
    /\ db w' = db accounts_world.
Proof.
  exact (deactivateUser_not_self (read_request admin1 "U4") accounts_world admin1
           eq_refl eq_refl).
Defined.

Lemma createUser_hospital_gate_witness :
  exists r,
    createUser hash_plain foreign_account accounts_world = (Ok r, accounts_world)
    /\ (r = mkResponse 403 (PError "You can only create users for your hospital")
        \/ r = mkResponse 400 (PError "Missing required fields")).
Proof.
  apply (createUser_hospital_gate hash_plain foreign_account accounts_world admin1 eq_refl).
  - intros Heq. vm_compute in Heq. discriminate Heq.
  - right. intros Heq. vm_compute in Heq. discriminate Heq.
Defined.

(** ** Payments: what a failure leaves behind *)

(** X26: a payment is recorded before the bill is updated, and the two
    writes are not one unit.  When the store fails on the update of the
    billing record, the answer is 500, the payment row stays and the
    billing record keeps its old paid amount and status. *)
Theorem addPayment_not_atomic (req : Request PaymentBody) (w : World) (u : Principal)
    (bid meth i : string) (a : float) (rest : list string) (b : BillingRecord)
    (fs : list bool) :
  user req = Some u ->
  billingRecordId (body req) = Some bid -> Js.truthy_str bid = true ->
  amount (body req) = Some a -> Js.truthy_num a = true ->
  method (body req) = Some meth -> Js.truthy_str meth = true ->
  faults w = false :: false :: true :: fs ->
  uuids w = i :: rest ->
  existsb (fun r => String.eqb (p_id r) i) (payments (db w)) = false ->
  billingRecords (db w) !! bid = Some b ->
  tenantAccess u (Some (br_hospitalId b)) = true ->
  exists w',
    addPayment req w = (Ok (mkResponse 500 (PError "Failed to add payment")), w')
    /\ payments (db w')
       = payments (db w) ++ [mkPayment i bid a meth (reference (body req)) (id u)]
    /\ billingRecords (db w') = billingRecords (db w)
    /\ auditLogs (db w') = auditLogs (db w).
Proof.
  intros Hu Hbid Hbt Ha Hat Hm Hmt Hf Hids Hfresh Hb Hacc.
  apply tenantDenied_access in Hacc.
  destruct w as [d c f ids t]. simpl in *. subst f ids.
  unfold addPayment, billingRecord_findUnique, billingRecord_update, payment_create.
  step_monad. rewrite Hu, Hbid, Ha, Hm. simpl. rewrite Hbt, Hat, Hmt. simpl.
  rewrite Hb. simpl. rewrite Hacc. simpl. rewrite Hfresh. simpl.
  eexists. split; [reflexivity|]. simpl. auto.
Qed.

Lemma addPayment_not_atomic_witness :
  exists w',
    addPayment settle_request billing_fault_world
    = (Ok (mkResponse 500 (PError "Failed to add payment")), w')
    /\ payments (db w')
       = [first_instalment; mkPayment "PAY2" "BR1" 10000%float "TRANSFER" None "U3"]
    /\ billingRecords (db w') = {["BR1" := open_bill]}
    /\ auditLogs (db w') = [].
Proof.
  exact (addPayment_not_atomic settle_request billing_fault_world cashier "BR1" "TRANSFER"
           "PAY2" 10000%float ["L1"] open_bill []
           eq_refl eq_refl eq_refl eq_refl eq_refl eq_refl eq_refl eq_refl eq_refl eq_refl
           eq_refl eq_refl).
Defined.

(** X27: an amount of zero, a NaN or no amount at all is a missing field.
    Such a request of an authenticated caller is answered 400 before any
    storage call, whatever the state of the world. *)
Theorem addPayment_requires_amount (req : Request PaymentBody) (w : World) (u : Principal) :
  user req = Some u ->
  amount (body req) = None
  \/ (exists a, amount (body req) = Some a
                /\ (PrimFloat.eqb a 0%float = true \/ PrimFloat.eqb a a = false)) ->
  addPayment req w = (Ok (mkResponse 400 (PError "Missing required fields")), w).
Proof.
  intros Hu Hamount.
  assert (Hfalsy : truthy_amount (amount (body req)) = false).
  { destruct Hamount as [-> | (a & -> & Ha)]; [reflexivity|].
    unfold truthy_amount, Js.truthy_num. apply negb_false_iff, orb_true_iff.
    destruct Ha as [Hz | Hnan]; [left; exact Hz|].
    right. unfold Js.is_nan. rewrite Hnan. reflexivity. }
  unfold addPayment. step_monad. rewrite Hu, Hfalsy. simpl.
  rewrite orb_true_r. reflexivity.
Qed.

Lemma addPayment_requires_amount_witness :
  addPayment (mkRequest (Some cashier) "" None None None
                        (mkPaymentBody (Some "BR1") (Some (-0)%float) (Some "CASH") None None))
             billing_world
  = (Ok (mkResponse 400 (PError "Missing required fields")), billing_world).
Proof.
  apply (addPayment_requires_amount _ billing_world cashier); [reflexivity|].
  right. exists (-0)%float. split; [reflexivity|]. left. vm_compute. reflexivity.
Defined.

(** ** Parameter helpers *)

(** X28: on the values Express hands over (absent, one string, or a list
    of strings) the helpers of the two files agree: [getQueryParam] is
    [queryParam], [param] is [getQueryParamWithDefault] with the empty
    default, and a non-empty default is never answered by the empty
    string. *)
Theorem param_helpers_agree (v : ParamValue) :
  v <> PVObject ->
  getQueryParam v = queryParam v
  /\ param v = getQueryParamWithDefault v ""
  /\ (forall d, d <> "" -> getQueryParamWithDefault v d <> "")
  /\ (queryParam v = None -> param v = "").
Proof.
  intros Hv.
  assert (Hdefault : forall o d, d <> "" ->
            (if Js.truthy_ostr o then default "" o else d) <> "").
  { intros [s|] d Hd; simpl; [|exact Hd].
    unfold Js.truthy_str. destruct (String.eqb s "") eqn:Hs; simpl; [exact Hd|].
    apply String.eqb_neq. exact Hs. }
  destruct v as [|s|xs|]; [| | |contradiction].
  - split; [reflexivity|]. split; [reflexivity|].
    split; [intros d Hd; exact Hd | reflexivity].
  - split; [reflexivity|].
    split; [unfold param, or_empty, getQueryParamWithDefault; simpl;
            destruct (Js.truthy_str s); reflexivity|].
    split; [intros d Hd; apply (Hdefault (Some s) d Hd) | discriminate].
  - split; [reflexivity|].
    split; [unfold param, or_empty, getQueryParamWithDefault; simpl;
            destruct (Js.truthy_ostr (head xs)); reflexivity|].
    split; [intros d Hd; apply (Hdefault (head xs) d Hd)|].
    simpl. intros ->. reflexivity.
Qed.

Lemma param_helpers_agree_witness :
  getQueryParam (PVArray ["7"; "8"]) = Some "7"
  /\ param (PVArray ["7"; "8"]) = "7"
  /\ getQueryParamWithDefault (PVArray []) "50" = "50".
Proof.
  destruct (param_helpers_agree (PVArray ["7"; "8"]) ltac:(discriminate))
    as (Hq & Hp & _).
  rewrite Hq, Hp. repeat split.
Defined.

(** ** Bed assignment: what a refusal leaves behind *)

(** X8: Whatever the store does, a bed assignment that is not answered 200
    has changed no admission row: the admission is only written inside the
    transaction. *)
Theorem assignBed_failed_keeps_admissions req w r w' :
  assignBed req w = (Ok r, w') -> status r <> 200%Z ->
  admissions (db w') = admissions (db w).
Proof.
  destruct w as [d c f i t].
  unfold assignBed, admission_findUnique, admission_update, bed_findUnique, bed_update.
  step_monad. simpl.
  repeat (first [ audit_returns | break_innermost ]; simpl in *; subst; simpl in * );
    try (intros [= <- <-]; simpl; intros Hs;
         solve [reflexivity | congruence | exfalso; apply Hs; reflexivity]).
Qed.

Lemma assignBed_failed_keeps_admissions_witness :
  (assignBed (assign "A1" "B2") failing_world).1
  = Ok (mkResponse 500 (PError "Failed to assign bed"))
  /\ admissions (db (assignBed (assign "A1" "B2") failing_world).2)
     = admissions (db failing_world).
Proof.
  split; [reflexivity|].
  apply (assignBed_failed_keeps_admissions (assign "A1" "B2") failing_world
           (mkResponse 500 (PError "Failed to assign bed"))).
  - vm_compute. reflexivity.
  - discriminate.
Defined.
